(** * SSH-agent request signer (triton-go [authentication/ssh_agent_signer.go])

    A shallow embedding of the signer that authenticates HTTP requests
    with a key held by an SSH agent, and the properties of its key
    matching, signing and construction. *)

From Stdlib Require Import ZArith List Lia Bool.
From Stdlib.Strings Require Import Ascii String Byte.
Import ListNotations.
Local Open Scope Z_scope.

(** ** Bytes and 32-bit words *)

Module Bytes.

Definition to_Z (b : byte) : Z := Z.of_N (Byte.to_N b).

Definition of_Z (z : Z) : byte :=
  match Byte.of_N (Z.to_N (z mod 256)) with
  | Some b => b
  | None => x00
  end.

(** [[]byte(s)] and [string(b)]: a Go string is its bytes. *)
Definition of_string (s : string) : list byte := list_byte_of_string s.
Definition to_string (b : list byte) : string := string_of_list_byte b.

Definition w32 (z : Z) : Z := z mod 4294967296.

Definition rotl (x n : Z) : Z :=
  w32 (Z.lor (Z.shiftl x n) (Z.shiftr x (32 - n))).

Definition rotr (x n : Z) : Z :=
  w32 (Z.lor (Z.shiftr x n) (Z.shiftl x (32 - n))).

Definition not32 (x : Z) : Z := Z.lxor x 4294967295.

(** Little-endian and big-endian renderings of a 32-bit word. *)
Definition le32 (x : Z) : list byte :=
  [of_Z x; of_Z (Z.shiftr x 8); of_Z (Z.shiftr x 16); of_Z (Z.shiftr x 24)].

Definition be32 (x : Z) : list byte :=
  [of_Z (Z.shiftr x 24); of_Z (Z.shiftr x 16); of_Z (Z.shiftr x 8); of_Z x].

Definition le64 (x : Z) : list byte := le32 x ++ le32 (Z.shiftr x 32).
Definition be64 (x : Z) : list byte := be32 (Z.shiftr x 32) ++ be32 x.

Definition word_le (b0 b1 b2 b3 : byte) : Z :=
  to_Z b0 + 256 * to_Z b1 + 65536 * to_Z b2 + 16777216 * to_Z b3.

Definition word_be (b0 b1 b2 b3 : byte) : Z := word_le b3 b2 b1 b0.

(** Words of a byte string, four bytes at a time; a short tail is dropped
    (padded messages have none). *)
Fixpoint words (mk : byte -> byte -> byte -> byte -> Z) (l : list byte)
  : list Z :=
  match l with
  | b0 :: b1 :: b2 :: b3 :: r => mk b0 b1 b2 b3 :: words mk r
  | _ => []
  end.

(** Blocks of [n] words. *)
Fixpoint blocks (fuel n : nat) (ws : list Z) : list (list Z) :=
  match fuel with
  | O => []
  | S fuel' =>
      match ws with
      | [] => []
      | _ => firstn n ws :: blocks fuel' n (skipn n ws)
      end
  end.

(** Zero bytes that bring a message of [len] bytes, plus the 0x80 marker,
    to 56 modulo 64. *)
Definition pad_zeros (len : nat) : list byte :=
  repeat x00 (Z.to_nat ((55 - Z.of_nat len) mod 64)).

End Bytes.

(** ** crypto/md5 (RFC 1321) *)

Module MD5.
Import Bytes.

Definition K : list Z :=
  [0xd76aa478; 0xe8c7b756; 0x242070db; 0xc1bdceee; 0xf57c0faf; 0x4787c62a;
   0xa8304613; 0xfd469501; 0x698098d8; 0x8b44f7af; 0xffff5bb1; 0x895cd7be;
   0x6b901122; 0xfd987193; 0xa679438e; 0x49b40821; 0xf61e2562; 0xc040b340;
   0x265e5a51; 0xe9b6c7aa; 0xd62f105d; 0x02441453; 0xd8a1e681; 0xe7d3fbc8;
   0x21e1cde6; 0xc33707d6; 0xf4d50d87; 0x455a14ed; 0xa9e3e905; 0xfcefa3f8;
   0x676f02d9; 0x8d2a4c8a; 0xfffa3942; 0x8771f681; 0x6d9d6122; 0xfde5380c;
   0xa4beea44; 0x4bdecfa9; 0xf6bb4b60; 0xbebfbc70; 0x289b7ec6; 0xeaa127fa;
   0xd4ef3085; 0x04881d05; 0xd9d4d039; 0xe6db99e5; 0x1fa27cf8; 0xc4ac5665;
   0xf4292244; 0x432aff97; 0xab9423a7; 0xfc93a039; 0x655b59c3; 0x8f0ccc92;
   0xffeff47d; 0x85845dd1; 0x6fa87e4f; 0xfe2ce6e0; 0xa3014314; 0x4e0811a1;
   0xf7537e82; 0xbd3af235; 0x2ad7d2bb; 0xeb86d391].

Definition shifts : list Z :=
  [7; 12; 17; 22; 7; 12; 17; 22; 7; 12; 17; 22; 7; 12; 17; 22;
   5; 9; 14; 20; 5; 9; 14; 20; 5; 9; 14; 20; 5; 9; 14; 20;
   4; 11; 16; 23; 4; 11; 16; 23; 4; 11; 16; 23; 4; 11; 16; 23;
   6; 10; 15; 21; 6; 10; 15; 21; 6; 10; 15; 21; 6; 10; 15; 21].

Definition state : Type := (Z * Z * Z * Z)%type.

Definition init : state :=
  (0x67452301, 0xefcdab89, 0x98badcfe, 0x10325476).

Definition step (m : list Z) (st : state) (i : nat) : state :=
  let '(a, b, c, d) := st in
  let r := (i / 16)%nat in
  let f :=
    match r with
    | 0%nat => Z.lor (Z.land b c) (Z.land (not32 b) d)
    | 1%nat => Z.lor (Z.land d b) (Z.land (not32 d) c)
    | 2%nat => Z.lxor (Z.lxor b c) d
    | _ => Z.lxor c (Z.lor b (not32 d))
    end in
  let g :=
    match r with
    | 0%nat => i
    | 1%nat => ((5 * i + 1) mod 16)%nat
    | 2%nat => ((3 * i + 5) mod 16)%nat
    | _ => ((7 * i) mod 16)%nat
    end in
  let t := w32 (f + a + nth i K 0 + nth g m 0) in
  (d, w32 (b + rotl t (nth i shifts 0)), b, c).

Definition block (st : state) (m : list Z) : state :=
  let '(a0, b0, c0, d0) := st in
  let '(a, b, c, d) := fold_left (step m) (seq 0 64) st in
  (w32 (a0 + a), w32 (b0 + b), w32 (c0 + c), w32 (d0 + d)).

Definition pad (msg : list byte) : list byte :=
  msg ++ x80 :: pad_zeros (List.length msg)
      ++ le64 (8 * Z.of_nat (List.length msg)).

Definition digest (st : state) : list byte :=
  let '(a, b, c, d) := st in le32 a ++ le32 b ++ le32 c ++ le32 d.

(** [h := md5.New(); h.Write(msg); h.Sum(nil)] *)
Definition Sum (msg : list byte) : list byte :=
  let ws := words word_le (pad msg) in
  digest (fold_left block (blocks (List.length ws) 16 ws) init).

End MD5.

(** ** crypto/sha256 (FIPS 180-4) *)

Module SHA256.
Import Bytes.

(** The first 64 primes. *)
Definition is_prime (n : nat) : bool :=
  forallb (fun d => negb (Nat.eqb (n mod d) 0)) (seq 2 (n - 2)).

Definition primes : list Z :=
  Eval vm_compute in map Z.of_nat (filter is_prime (seq 2 310)).

(** Integer cube root, one bit at a time from bit 35 down. *)
Definition cbrt_bit (n r : Z) (b : nat) : Z :=
  let r' := r + Z.shiftl 1 (Z.of_nat b) in
  if r' * r' * r' <=? n then r' else r.

Definition cbrt (n : Z) : Z := fold_left (cbrt_bit n) (rev (seq 0 36)) 0.

(** Round constants: the first 32 bits of the fractional parts of the cube
    roots of the primes. *)
Definition K : list Z :=
  Eval vm_compute in map (fun p => w32 (cbrt (Z.shiftl p 96))) primes.

(** Initial hash value: the first 32 bits of the fractional parts of the
    square roots of the first eight primes. *)
Definition init : list Z :=
  Eval vm_compute in
    map (fun p => w32 (Z.sqrt (Z.shiftl p 64))) (firstn 8 primes).

Definition ssig0 (x : Z) : Z :=
  Z.lxor (Z.lxor (rotr x 7) (rotr x 18)) (Z.shiftr x 3).
Definition ssig1 (x : Z) : Z :=
  Z.lxor (Z.lxor (rotr x 17) (rotr x 19)) (Z.shiftr x 10).
Definition bsig0 (x : Z) : Z :=
  Z.lxor (Z.lxor (rotr x 2) (rotr x 13)) (rotr x 22).
Definition bsig1 (x : Z) : Z :=
  Z.lxor (Z.lxor (rotr x 6) (rotr x 11)) (rotr x 25).

(** Message schedule, kept newest word first. *)
Definition extend (rev_w : list Z) (_ : nat) : list Z :=
  w32 (ssig1 (nth 1 rev_w 0) + nth 6 rev_w 0
       + ssig0 (nth 14 rev_w 0) + nth 15 rev_w 0) :: rev_w.

Definition schedule (m : list Z) : list Z :=
  rev (fold_left extend (seq 16 48) (rev m)).

Definition round (w : list Z) (st : list Z) (i : nat) : list Z :=
  match st with
  | [a; b; c; d; e; f; g; h] =>
      let ch := Z.lxor (Z.land e f) (Z.land (not32 e) g) in
      let maj := Z.lxor (Z.lxor (Z.land a b) (Z.land a c)) (Z.land b c) in
      let t1 := (h + bsig1 e + ch + nth i K 0 + nth i w 0) in
      let t2 := (bsig0 a + maj) in
      [w32 (t1 + t2); a; b; c; w32 (d + t1); e; f; g]
  | _ => st
  end.

Fixpoint add32 (x y : list Z) : list Z :=
  match x, y with
  | a :: x', b :: y' => w32 (a + b) :: add32 x' y'
  | _, _ => []
  end.

Definition block (st : list Z) (m : list Z) : list Z :=
  add32 st (fold_left (round (schedule m)) (seq 0 64) st).

Definition pad (msg : list byte) : list byte :=
  msg ++ x80 :: pad_zeros (List.length msg)
      ++ be64 (8 * Z.of_nat (List.length msg)).

(** [h := sha256.New(); h.Write(msg); h.Sum(nil)] *)
Definition Sum (msg : list byte) : list byte :=
  let ws := words word_be (pad msg) in
  flat_map be32 (fold_left block (blocks (List.length ws) 16 ws) init).

End SHA256.

Local Close Scope Z_scope.
Open Scope string_scope.

(** ** Text encodings *)

Module Encoding.

Definition hex_alphabet : list ascii :=
  list_ascii_of_string "0123456789abcdef".

Definition b64_alphabet : list ascii :=
  list_ascii_of_string
    "ABCDEFGHIJKLMNOPQRSTUVWXYZabcdefghijklmnopqrstuvwxyz0123456789+/".

Definition hex_digit (n : N) : ascii := nth (N.to_nat n) hex_alphabet "0"%char.
Definition b64_digit (n : N) : ascii := nth (N.to_nat n) b64_alphabet "A"%char.

(** The [%x] verb on a byte slice: two lowercase digits per byte. *)
Fixpoint hex (bs : list byte) : string :=
  match bs with
  | [] => ""
  | b :: r =>
      let n := Byte.to_N b in
      String (hex_digit (n / 16)) (String (hex_digit (n mod 16)) (hex r))
  end.

(** [base64.RawStdEncoding.EncodeToString]: standard alphabet, no padding. *)
Fixpoint base64_raw (bs : list byte) : string :=
  match bs with
  | [] => ""
  | [a] =>
      let x := Byte.to_N a in
      String (b64_digit (x / 4)) (String (b64_digit ((x mod 4) * 16)) "")
  | [a; b] =>
      let x := Byte.to_N a in
      let y := Byte.to_N b in
      String (b64_digit (x / 4))
        (String (b64_digit ((x mod 4) * 16 + y / 16))
           (String (b64_digit ((y mod 16) * 4)) ""))
  | a :: b :: c :: r =>
      let x := Byte.to_N a in
      let y := Byte.to_N b in
      let z := Byte.to_N c in
      String (b64_digit (x / 4))
        (String (b64_digit ((x mod 4) * 16 + y / 16))
           (String (b64_digit ((y mod 16) * 4 + z / 64))
              (String (b64_digit (z mod 64)) (base64_raw r))))
  end%N.

(** Bytes written as a hexadecimal literal, for test data. *)
Definition unhex_digit (c : ascii) : N :=
  let n := N_of_ascii c in
  (if 97 <=? n then n - 87 else if 65 <=? n then n - 55 else n - 48)%N.

Fixpoint unhex (s : string) : list byte :=
  match s with
  | String h (String l r) =>
      Bytes.of_Z (Z.of_N (unhex_digit h * 16 + unhex_digit l)) :: unhex r
  | _ => []
  end.

End Encoding.

(** ** The [strings] package *)

Fixpoint strip_prefix (prefix s : string) : option string :=
  match prefix with
  | "" => Some s
  | String c prefix' =>
      match s with
      | String d s' => if Ascii.eqb c d then strip_prefix prefix' s' else None
      | "" => None
      end
  end.

Definition strings_HasPrefix (s prefix : string) : bool :=
  match strip_prefix prefix s with Some _ => true | None => false end.

(** [strings.TrimPrefix(s, prefix)]: [s] without the leading [prefix], or
    [s] itself when it does not start with it. *)
Definition strings_TrimPrefix (s prefix : string) : string :=
  match strip_prefix prefix s with Some r => r | None => s end.

(** Left-to-right scan of [strings.Replace]; [skip] counts the characters
    of a match that are still to be dropped. *)
Fixpoint replace_scan (old new : string) (skip : nat) (s : string) : string :=
  match s with
  | "" => ""
  | String c s' =>
      match skip with
      | S k => replace_scan old new k s'
      | O =>
          if strings_HasPrefix s old
          then new ++ replace_scan old new (String.length old - 1) s'
          else String c (replace_scan old new 0 s')
      end
  end.

(** [strings.Replace(s, old, new, -1)] for a non-empty [old] (both call
    sites pass a non-empty literal): every non-overlapping occurrence,
    leftmost first. *)
Definition strings_ReplaceAll (s old new : string) : string :=
  replace_scan old new 0 s.

(** ** The [fmt] package *)

Inductive arg : Type :=
| AString (s : string)
| ABytes (b : list byte).

Definition verb_s (a : arg) : string :=
  match a with
  | AString s => s
  | ABytes b => Bytes.to_string b
  end.

Definition verb_x (a : arg) : string :=
  match a with
  | AString s => Encoding.hex (Bytes.of_string s)
  | ABytes b => Encoding.hex b
  end.

(** [fmt.Sprintf] for the verbs the package uses, [%s] and [%x]; an error
    operand of [%s] is passed as its message.  A verb without an operand
    prints Go's [%!v(MISSING)] marker. *)
Fixpoint fmt_Sprintf (format : string) (args : list arg) : string :=
  match format with
  | "" => ""
  | String "%" (String v format') =>
      if Ascii.eqb v "s" then
        match args with
        | a :: args' => verb_s a ++ fmt_Sprintf format' args'
        | [] => "%!s(MISSING)" ++ fmt_Sprintf format' []
        end
      else if Ascii.eqb v "x" then
        match args with
        | a :: args' => verb_x a ++ fmt_Sprintf format' args'
        | [] => "%!x(MISSING)" ++ fmt_Sprintf format' []
        end
      else String "%" (String v (fmt_Sprintf format' args))
  | String c format' => String c (fmt_Sprintf format' args)
  end.

(** ** Errors *)

(** [errors.New] and [fmt.Errorf] build a plain message; [errwrap] keeps
    the cause next to the outer error. *)
Inductive error : Type :=
| errorString (s : string)
| wrappedError (outer inner : error).

Fixpoint Error (e : error) : string :=
  match e with
  | errorString s => s
  | wrappedError outer _ => Error outer
  end.

Definition errors_New (s : string) : error := errorString s.

Definition fmt_Errorf (format : string) (args : list arg) : error :=
  errors_New (fmt_Sprintf format args).

(** [errwrap.Wrapf(format, err)] for a non-nil [err]: the outer message is
    [format] with every [{{err}}] replaced by the cause's message. *)
Definition errwrap_Wrapf (format : string) (err : error) : error :=
  wrappedError
    (errors_New (strings_ReplaceAll format "{{err}}" (Error err))) err.

Definition ErrUnsetEnvVar : error := errors_New "SSH_AUTH_SOCK is not set".

(** ** Results of Go calls *)

(** A [(value, error)] return: the value with a nil error, or the error
    with the zero value. *)
Inductive result (A : Type) : Type :=
| Ok (a : A)
| Err (e : error).
Arguments Ok {A} a.
Arguments Err {A} e.

(** ** Agent protocol types ([golang.org/x/crypto/ssh] and [ssh/agent]) *)

(** [agent.Key], the [ssh.PublicKey] that [List] returns; [Marshal] is its
    wire encoding. *)
Record Key : Type := {
  Key_Format : string;
  Key_Blob : list byte;
  Key_Comment : string
}.

Definition Marshal (k : Key) : list byte := Key_Blob k.

(** [ssh.Signature] *)
Record Signature : Type := {
  Format : string;
  Blob : list byte
}.

(** The [httpAuthSignature] interface, as the values of its two methods
    [SignatureType()] and [String()]. *)
Record httpAuthSignature : Type := {
  SignatureType : string;
  String_ : string
}.

(** Descriptor of an open socket ([net.Conn]). *)
Definition Conn : Type := nat.

(** [agent.NewClient(conn)] *)
Record AgentClient : Type := agent_NewClient { client_conn : Conn }.

(** ** The host: environment, sockets and the agent process *)

(** Everything outside the package.  [W] is the state of the outside
    world; a test double instantiates it with scripted replies.  The agent
    receives the key as the interface value it is passed, nil included. *)
Class Host (W : Type) : Type := {
  host_LookupEnv : string -> W -> option string;
  host_Dial : string -> string -> W -> result Conn * W;
  host_List : Conn -> W -> result (list Key) * W;
  host_Sign : Conn -> option Key -> list byte -> W -> result Signature * W
}.

(** Calls that leave the package, in the order they are issued. *)
Inductive Event : Type :=
| EvLookupEnv (name : string)
| EvDial (network address : string)
| EvList (c : Conn)
| EvSign (c : Conn) (key : option Key) (data : list byte).

Definition is_network (e : Event) : bool :=
  match e with
  | EvLookupEnv _ => false
  | _ => true
  end.

(** ** The rest of the package *)

Definition quote : ascii := Ascii false true false false false true false false.

(** Modelled from the spec: the constant [authorizationHeaderFormat] is
    declared in another file of the package; section 6 of the
    specification gives the header as keyId, algorithm, headers and
    signature fields, each value in double quotes, separated by commas. *)
Definition authorizationHeaderFormat : string :=
  "keyId=" ++ String quote ("%s" ++ String quote
  (",algorithm=" ++ String quote ("%s" ++ String quote
  (",headers=" ++ String quote ("%s" ++ String quote
  (",signature=" ++ String quote ("%s" ++ String quote ""))))))).

(** Functions of the package that live in its other files: the format-tag
    classifier, the two signature decoders and the fingerprint
    formatter. *)
Class Package : Type := {
  keyFormatToKeyType : string -> result string;
  newRSASignature : list byte -> result httpAuthSignature;
  newECDSASignature : list byte -> result httpAuthSignature;
  formatPublicKeyFingerprint : Key -> bool -> string
}.

(** ** The signer *)

Record SSHAgentSigner : Type := {
  formattedKeyFingerprint : string;
  keyFingerprint : string;
  algorithm : string;
  accountName : string;
  keyIdentifier : string;
  agent : option AgentClient;
  key : option Key
}.

Definition set_key (v : option Key) (s : SSHAgentSigner) : SSHAgentSigner :=
  {| formattedKeyFingerprint := formattedKeyFingerprint s;
     keyFingerprint := keyFingerprint s;
     algorithm := algorithm s;
     accountName := accountName s;
     keyIdentifier := keyIdentifier s;
     agent := agent s;
     key := v |}.

Definition set_formattedKeyFingerprint (v : string) (s : SSHAgentSigner)
  : SSHAgentSigner :=
  {| formattedKeyFingerprint := v;
     keyFingerprint := keyFingerprint s;
     algorithm := algorithm s;
     accountName := accountName s;
     keyIdentifier := keyIdentifier s;
     agent := agent s;
     key := key s |}.

Definition set_keyIdentifier (v : string) (s : SSHAgentSigner)
  : SSHAgentSigner :=
  {| formattedKeyFingerprint := formattedKeyFingerprint s;
     keyFingerprint := keyFingerprint s;
     algorithm := algorithm s;
     accountName := accountName s;
     keyIdentifier := v;
     agent := agent s;
     key := key s |}.

Definition set_algorithm (v : string) (s : SSHAgentSigner) : SSHAgentSigner :=
  {| formattedKeyFingerprint := formattedKeyFingerprint s;
     keyFingerprint := keyFingerprint s;
     algorithm := v;
     accountName := accountName s;
     keyIdentifier := keyIdentifier s;
     agent := agent s;
     key := key s |}.

(** A [*SSHAgentSigner]: the index of the object in the heap. *)
Definition ptr : Type := nat.

(** ** Program state and its monad *)

Record State (W : Type) : Type := {
  world : W;
  trace : list Event;
  heap : list SSHAgentSigner
}.
Arguments world {W} s.
Arguments trace {W} s.
Arguments heap {W} s.

(** A call either returns or panics. *)
Inductive outcome (A : Type) : Type :=
| Returned (a : A)
| Panicked (reason : string).
Arguments Returned {A} a.
Arguments Panicked {A} reason.

Definition M (W A : Type) : Type := State W -> outcome A * State W.

Definition ret {W A} (a : A) : M W A := fun st => (Returned a, st).

Definition bind {W A B} (m : M W A) (k : A -> M W B) : M W B :=
  fun st =>
    match m st with
    | (Returned a, st') => k a st'
    | (Panicked r, st') => (Panicked r, st')
    end.

Definition panic {W A} (reason : string) : M W A :=
  fun st => (Panicked reason, st).

Declare Scope go_scope.
Delimit Scope go_scope with go.
Notation "x <- m ;; k" := (bind m (fun x => k))
  (at level 61, m at next level, right associativity) : go_scope.
Notation "m ;; k" := (bind m (fun _ => k))
  (at level 61, right associativity) : go_scope.
Open Scope go_scope.

Definition nil_dereference : string :=
  "invalid memory address or nil pointer dereference".

Section Model.

Context {W : Type} `{Host W} `{Package}.

Definition emit (e : Event) (w : W) (st : State W) : State W :=
  {| world := w; trace := trace st ++ [e]; heap := heap st |}.

(** [os.LookupEnv] *)
Definition os_LookupEnv (name : string) : M W (option string) :=
  fun st =>
    (Returned (host_LookupEnv name (world st)),
     emit (EvLookupEnv name) (world st) st).

(** [net.Dial] *)
Definition net_Dial (network address : string) : M W (result Conn) :=
  fun st =>
    let (r, w) := host_Dial network address (world st) in
    (Returned r, emit (EvDial network address) w st).

(** [ag.List()] on the [agent.Agent] interface value [ag] *)
Definition agent_List (ag : option AgentClient) : M W (result (list Key)) :=
  match ag with
  | None => panic nil_dereference
  | Some c =>
      fun st =>
        let (r, w) := host_List (client_conn c) (world st) in
        (Returned r, emit (EvList (client_conn c)) w st)
  end.

(** [ag.Sign(key, data)] *)
Definition agent_Sign (ag : option AgentClient) (k : option Key)
    (data : list byte) : M W (result Signature) :=
  match ag with
  | None => panic nil_dereference
  | Some c =>
      fun st =>
        let (r, w) := host_Sign (client_conn c) k data (world st) in
        (Returned r, emit (EvSign (client_conn c) k data) w st)
  end.

(** [&SSHAgentSigner{...}] *)
Definition alloc (s : SSHAgentSigner) : M W ptr :=
  fun st =>
    (Returned (List.length (heap st)),
     {| world := world st; trace := trace st; heap := heap st ++ [s] |}).

(** Reading the object behind a receiver. *)
Definition load (p : ptr) : M W SSHAgentSigner :=
  fun st =>
    match nth_error (heap st) p with
    | Some s => (Returned s, st)
    | None => (Panicked nil_dereference, st)
    end.

Fixpoint update (p : nat) (f : SSHAgentSigner -> SSHAgentSigner)
    (h : list SSHAgentSigner) : list SSHAgentSigner :=
  match h, p with
  | [], _ => []
  | s :: h', O => f s :: h'
  | s :: h', S p' => s :: update p' f h'
  end.

(** Assigning a field through a pointer. *)
Definition store (p : ptr) (f : SSHAgentSigner -> SSHAgentSigner) : M W unit :=
  fun st =>
    match nth_error (heap st) p with
    | Some _ =>
        (Returned tt,
         {| world := world st; trace := trace st;
            heap := update p f (heap st) |})
    | None => (Panicked nil_dereference, st)
    end.

(** Lines 75-77: the target fingerprint without its algorithm prefix and
    without colons. *)
Definition stripFingerprint (fingerprint : string) : string :=
  let keyFingerprintStripped := strings_TrimPrefix fingerprint "MD5:" in
  let keyFingerprintStripped :=
    strings_TrimPrefix keyFingerprintStripped "SHA256:" in
  strings_ReplaceAll keyFingerprintStripped ":" "".

Definition finalizedMD5 (k : Key) : string :=
  fmt_Sprintf "%x" [ABytes (MD5.Sum (Marshal k))].

Definition finalizedSHA256 (k : Key) : string :=
  Encoding.base64_raw (SHA256.Sum (Marshal k)).

(** Line 89: the test of one candidate. *)
Definition key_matches (keyFingerprintStripped : string) (k : Key) : bool :=
  (keyFingerprintStripped =? finalizedMD5 k)
  || (keyFingerprintStripped =? finalizedSHA256 k).

(** Lines 79-92: the scan, [matchingKey] starting as nil. *)
Definition scanKeys (keyFingerprintStripped : string) (keys : list Key)
  : option Key :=
  fold_left
    (fun matchingKey k =>
       if key_matches keyFingerprintStripped k then Some k else matchingKey)
    keys None.

Definition MatchKey (s : ptr) : M W (result Key) :=
  this <- load s ;;
  keys <- agent_List (agent this) ;;
  match keys with
  | Err err =>
      ret (Err (errwrap_Wrapf "Error listing keys in SSH Agent: %s" err))
  | Ok keys =>
      match scanKeys (stripFingerprint (keyFingerprint this)) keys with
      | None =>
          ret (Err (fmt_Errorf
                      "No key in the SSH Agent matches fingerprint: %s"
                      [AString (keyFingerprint this)]))
      | Some matchingKey => ret (Ok matchingKey)
      end
  end.

Definition headerName : string := "date".

Definition Sign (s : ptr) (dateHeader : string) : M W (result string) :=
  this <- load s ;;
  signature <-
    agent_Sign (agent this) (key this)
      (Bytes.of_string
         (fmt_Sprintf "%s: %s" [AString headerName; AString dateHeader])) ;;
  match signature with
  | Err err =>
      ret (Err (errwrap_Wrapf "Error signing date header: {{err}}" err))
  | Ok signature =>
      match keyFormatToKeyType (Format signature) with
      | Err err =>
          ret (Err (errwrap_Wrapf "Error reading signature: {{err}}" err))
      | Ok keyFormat =>
          let render authSignature :=
            fmt_Sprintf authorizationHeaderFormat
              [AString (keyIdentifier this);
               AString (SignatureType authSignature);
               AString headerName;
               AString (String_ authSignature)] in
          if keyFormat =? "rsa" then
            match newRSASignature (Blob signature) with
            | Err err =>
                ret (Err (errwrap_Wrapf
                            "Error reading signature: {{err}}" err))
            | Ok authSignature => ret (Ok (render authSignature))
            end
          else if keyFormat =? "ecdsa" then
            match newECDSASignature (Blob signature) with
            | Err err =>
                ret (Err (errwrap_Wrapf
                            "Error reading signature: {{err}}" err))
            | Ok authSignature => ret (Ok (render authSignature))
            end
          else
            ret (Err (fmt_Errorf "Unsupported algorithm from SSH agent: %s"
                        [AString (Format signature)]))
      end
  end.

Definition SignRaw (s : ptr) (toSign : string)
  : M W (result (string * string)) :=
  this <- load s ;;
  signature <- agent_Sign (agent this) (key this) (Bytes.of_string toSign) ;;
  match signature with
  | Err err => ret (Err (errwrap_Wrapf "Error signing string: {{err}}" err))
  | Ok signature =>
      match keyFormatToKeyType (Format signature) with
      | Err err =>
          ret (Err (errwrap_Wrapf "Error reading signature: {{err}}" err))
      | Ok keyFormat =>
          if keyFormat =? "rsa" then
            match newRSASignature (Blob signature) with
            | Err err =>
                ret (Err (errwrap_Wrapf
                            "Error reading signature: {{err}}" err))
            | Ok authSignature =>
                ret (Ok (String_ authSignature, SignatureType authSignature))
            end
          else if keyFormat =? "ecdsa" then
            match newECDSASignature (Blob signature) with
            | Err err =>
                ret (Err (errwrap_Wrapf
                            "Error reading signature: {{err}}" err))
            | Ok authSignature =>
                ret (Ok (String_ authSignature, SignatureType authSignature))
            end
          else
            ret (Err (fmt_Errorf "Unsupported algorithm from SSH agent: %s"
                        [AString (Format signature)]))
      end
  end.

Definition KeyFingerprint (s : ptr) : M W string :=
  this <- load s ;; ret (formattedKeyFingerprint this).

Definition DefaultAlgorithm (s : ptr) : M W string :=
  this <- load s ;; ret (algorithm this).

Definition NewSSHAgentSigner (keyFingerprint_ accountName_ : string)
  : M W (result ptr) :=
  env <- os_LookupEnv "SSH_AUTH_SOCK" ;;
  match env with
  | None => ret (Err ErrUnsetEnvVar)
  | Some sshAgentAddress =>
      conn <- net_Dial "unix" sshAgentAddress ;;
      match conn with
      | Err err =>
          ret (Err (errwrap_Wrapf "Error dialing SSH agent: {{err}}" err))
      | Ok conn =>
          let ag := agent_NewClient conn in
          signer <-
            alloc {| formattedKeyFingerprint := "";
                     keyFingerprint := keyFingerprint_;
                     algorithm := "";
                     accountName := accountName_;
                     keyIdentifier := "";
                     agent := Some ag;
                     key := None |} ;;
          matchingKey <- MatchKey signer ;;
          match matchingKey with
          | Err err => ret (Err err)
          | Ok matchingKey =>
              store signer (set_key (Some matchingKey)) ;;
              this <- load signer ;;
              match key this with
              | None => panic nil_dereference
              | Some k =>
                  store signer
                    (set_formattedKeyFingerprint
                       (formatPublicKeyFingerprint k true)) ;;
                  this <- load signer ;;
                  store signer
                    (set_keyIdentifier
                       (fmt_Sprintf "/%s/keys/%s"
                          [AString (accountName this);
                           AString (formattedKeyFingerprint this)])) ;;
                  raw <- SignRaw signer "HelloWorld" ;;
                  match raw with
                  | Err err =>
                      ret (Err (fmt_Errorf "Cannot sign using ssh agent: %s"
                                  [AString (Error err)]))
                  | Ok (_, algorithm) =>
                      store signer (set_algorithm algorithm) ;;
                      ret (Ok signer)
                  end
              end
          end
      end
  end.

End Model.

(** ** Specification-side definitions *)

(** The normalizer of section 4.3, in the specification's words: the format
    tag is mapped to a key-type family, the blob is decoded by the decoder
    of that family, and the result is the pair of signature text and
    algorithm label.  [None] stands for every failure. *)
Definition Normalize `{Package} (format : string) (blob : list byte)
  : option (string * string) :=
  match keyFormatToKeyType format with
  | Ok family =>
      let decoded :=
        if family =? "rsa" then Some (newRSASignature blob)
        else if family =? "ecdsa" then Some (newECDSASignature blob)
        else None in
      match decoded with
      | Some (Ok a) => Some (String_ a, SignatureType a)
      | _ => None
      end
  | Err _ => None
  end.

(** The header value of section 6, field by field. *)
Definition header_value (keyId algorithmLabel signatureText : string)
  : string :=
  "keyId=" ++ String quote (keyId ++ String quote
  (",algorithm=" ++ String quote (algorithmLabel ++ String quote
  (",headers=" ++ String quote ("date" ++ String quote
  (",signature=" ++ String quote (signatureText ++ String quote ""))))))).

(** The error classes of section 7 that the claims name, as the errors the
    code builds for them. *)
Definition KeyNotFoundError (fingerprint : string) : error :=
  errorString ("No key in the SSH Agent matches fingerprint: " ++ fingerprint).

Definition UnsupportedAlgorithmError (format : string) : error :=
  errorString ("Unsupported algorithm from SSH agent: " ++ format).

Definition ConfigError : error := ErrUnsetEnvVar.

(** *** Fingerprint input forms (section 6) *)

(** A colon between every pair of characters. *)
Fixpoint colon_pairs (s : string) : string :=
  match s with
  | String a (String b (String _ _ as r)) =>
      String a (String b (String ":" (colon_pairs r)))
  | _ => s
  end.

Inductive digest_family : Type := MD5_hex | SHA256_base64.

(** A supported form: which digest, with or without the algorithm prefix,
    with or without colons. *)
Record FingerprintForm : Type := {
  form_family : digest_family;
  form_prefixed : bool;
  form_colons : bool
}.

Definition digest_text (f : digest_family) (k : Key) : string :=
  match f with
  | MD5_hex => Encoding.hex (MD5.Sum (Marshal k))
  | SHA256_base64 => Encoding.base64_raw (SHA256.Sum (Marshal k))
  end.

Definition family_prefix (f : digest_family) : string :=
  match f with
  | MD5_hex => "MD5:"
  | SHA256_base64 => "SHA256:"
  end.

(** The fingerprint of key [k] written in form [f]. *)
Definition fingerprint_in (f : FingerprintForm) (k : Key) : string :=
  (if form_prefixed f then family_prefix (form_family f) else "")
  ++ (if form_colons f
      then colon_pairs (digest_text (form_family f) k)
      else digest_text (form_family f) k).

(** The candidate a call of [MatchKey] selected, if any. *)
Definition selected {W} (r : outcome (result Key) * State W) : option Key :=
  match fst r with
  | Returned (Ok k) => Some k
  | _ => None
  end.

(** ** Test doubles *)

Module Double.

(** An agent and its host that answer from a script: the environment
    setting, the result of dialling, the key list, and the replies to
    successive signing requests. *)
Record Script : Type := {
  script_env : option string;
  script_dial : result Conn;
  script_keys : result (list Key);
  script_signs : list (result Signature)
}.

Definition refused : error := errors_New "agent refused operation".

#[export] Instance host : Host Script := {
  host_LookupEnv name w :=
    if name =? "SSH_AUTH_SOCK" then script_env w else None;
  host_Dial _ _ w := (script_dial w, w);
  host_List _ w := (script_keys w, w);
  host_Sign _ _ _ w :=
    match script_signs w with
    | r :: rest =>
        (r, {| script_env := script_env w;
               script_dial := script_dial w;
               script_keys := script_keys w;
               script_signs := rest |})
    | [] => (Err refused, w)
    end
}.

(** A stand-in for the package's other files, enough to run the examples:
    three format tags are classified, and a decoded signature is the
    base64 text of the blob. *)
#[export] Instance package : Package := {
  keyFormatToKeyType format :=
    if format =? "ssh-rsa" then Ok "rsa"
    else if format =? "ssh-ed25519" then Ok "ed25519"
    else if strings_HasPrefix format "ecdsa-sha2-" then Ok "ecdsa"
    else Err (errors_New ("Unknown key format: " ++ format));
  newRSASignature blob :=
    Ok {| SignatureType := "rsa-sha256";
          String_ := Encoding.base64_raw blob |};
  newECDSASignature blob :=
    Ok {| SignatureType := "ecdsa-sha256";
          String_ := Encoding.base64_raw blob |};
  formatPublicKeyFingerprint k display :=
    let digest := Encoding.base64_raw (SHA256.Sum (Marshal k)) in
    if display then "SHA256:" ++ colon_pairs digest else digest
}.

Definition start (w : Script) : State Script :=
  {| world := w; trace := []; heap := [] |}.

Definition rsa_key : Key :=
  {| Key_Format := "ssh-rsa";
     Key_Blob := Bytes.of_string "an rsa public key";
     Key_Comment := "user@host" |}.

Definition other_key : Key :=
  {| Key_Format := "ssh-rsa";
     Key_Blob := Bytes.of_string "another rsa public key";
     Key_Comment := "other@host" |}.

(** The same public key listed twice, under two comments. *)
Definition rsa_key_again : Key :=
  {| Key_Format := "ssh-rsa";
     Key_Blob := Bytes.of_string "an rsa public key";
     Key_Comment := "second copy" |}.

Definition rsa_reply : result Signature :=
  Ok {| Format := "ssh-rsa"; Blob := Bytes.of_string "rsa signature" |}.

Definition ecdsa_reply : result Signature :=
  Ok {| Format := "ecdsa-sha2-nistp256";
        Blob := Bytes.of_string "ecdsa signature" |}.

Definition ed25519_reply : result Signature :=
  Ok {| Format := "ssh-ed25519"; Blob := Bytes.of_string "ed signature" |}.

Definition script (keys : list Key) (signs : list (result Signature))
  : Script :=
  {| script_env := Some "/tmp/agent.sock";
     script_dial := Ok 3;
     script_keys := Ok keys;
     script_signs := signs |}.

(** Two 64-byte strings with the same MD5 digest (a published single-block
    collision), offered by an agent as two key blobs. *)
Definition blob_a : list byte :=
  Encoding.unhex
    ("4dc968ff0ee35c209572d4777b721587d36fa7b21bdc56b74a3dc0783e7b9518"
     ++ "afbfa200a8284bf36e8e4b55b35f427593d849676da0d1555d8360fb5f07fea2").

Definition blob_b : list byte :=
  Encoding.unhex
    ("4dc968ff0ee35c209572d4777b721587d36fa7b21bdc56b74a3dc0783e7b9518"
     ++ "afbfa202a8284bf36e8e4b55b35f427593d849676da0d1d55d8360fb5f07fea2").

Definition key_a : Key :=
  {| Key_Format := "ssh-rsa"; Key_Blob := blob_a; Key_Comment := "a" |}.

Definition key_b : Key :=
  {| Key_Format := "ssh-rsa"; Key_Blob := blob_b; Key_Comment := "b" |}.

(** A signer object as a caller could hold it after construction. *)
Definition signer_with (fingerprint : string) : SSHAgentSigner :=
  {| formattedKeyFingerprint := "";
     keyFingerprint := fingerprint;
     algorithm := "";
     accountName := "acct";
     keyIdentifier := "";
     agent := Some (agent_NewClient 3);
     key := None |}.

End Double.


(** ** Auxiliary definitions for the proofs *)

Fixpoint no_colon (s : string) : bool :=
  match s with
  | "" => true
  | String c r => negb (Ascii.eqb c ":") && no_colon r
  end.

Fixpoint drop_colons (s : string) : string :=
  match s with
  | "" => ""
  | String c r => if Ascii.eqb c ":" then drop_colons r else String c (drop_colons r)
  end.

(** The trace, world and heap a call leaves behind. *)
Definition after {W A} (r : outcome A * State W) : State W := snd r.
Definition value {W A} (r : outcome A * State W) : outcome A := fst r.

(** The fields that construction sets, for a signer built from
    [fingerprint] and [account] over connection [c], with matched key [k]
    and probe label [alg]. *)
Definition initialized `{Package} (fingerprint account : string) (c : Conn)
    (k : Key) (alg : string) : SSHAgentSigner :=
  {| formattedKeyFingerprint := formatPublicKeyFingerprint k true;
     keyFingerprint := fingerprint;
     algorithm := alg;
     accountName := account;
     keyIdentifier :=
       "/" ++ account ++ "/keys/" ++ formatPublicKeyFingerprint k true;
     agent := Some (agent_NewClient c);
     key := Some k |}.

(** The object line 46 allocates. *)
Definition allocated (fingerprint account : string) (c : Conn)
  : SSHAgentSigner :=
  {| formattedKeyFingerprint := "";
     keyFingerprint := fingerprint;
     algorithm := "";
     accountName := account;
     keyIdentifier := "";
     agent := Some (agent_NewClient c);
     key := None |}.

Definition probe : list byte := Bytes.of_string "HelloWorld".

Definition CannotSignError (cause : error) : error :=
  errorString ("Cannot sign using ssh agent: " ++ Error cause).

(** The errors construction can return (section 7): the unset setting, a
    failed dial, a failed listing, no matching key, a failed probe. *)
Inductive construction_error (fingerprint : string) : error -> Prop :=
| ce_config : construction_error fingerprint ConfigError
| ce_dial cause :
    construction_error fingerprint
      (errwrap_Wrapf "Error dialing SSH agent: {{err}}" cause)
| ce_list cause :
    construction_error fingerprint
      (errwrap_Wrapf "Error listing keys in SSH Agent: %s" cause)
| ce_no_key : construction_error fingerprint (KeyNotFoundError fingerprint)
| ce_probe cause : construction_error fingerprint (CannotSignError cause).

(** The switch that [Sign] (lines 109-128) and [SignRaw] (lines 140-159)
    both carry, as one function of the agent's signature. *)
Definition decodeSignature `{Package} (signature : Signature)
  : result httpAuthSignature :=
  match keyFormatToKeyType (Format signature) with
  | Err err => Err (errwrap_Wrapf "Error reading signature: {{err}}" err)
  | Ok keyFormat =>
      if keyFormat =? "rsa" then
        match newRSASignature (Blob signature) with
        | Err err =>
            Err (errwrap_Wrapf "Error reading signature: {{err}}" err)
        | Ok a => Ok a
        end
      else if keyFormat =? "ecdsa" then
        match newECDSASignature (Blob signature) with
        | Err err =>
            Err (errwrap_Wrapf "Error reading signature: {{err}}" err)
        | Ok a => Ok a
        end
      else Err (UnsupportedAlgorithmError (Format signature))
  end.

Fixpoint all_in (alphabet : list ascii) (s : string) : bool :=
  match s with
  | "" => true
  | String c r => existsb (Ascii.eqb c) alphabet && all_in alphabet r
  end.

(** Only the digits [0-9a-f]. *)
Definition all_hex (s : string) : bool := all_in Encoding.hex_alphabet s.

(** Only the 64 characters of the standard base64 alphabet. *)
Definition all_base64 (s : string) : bool :=
  all_in Encoding.b64_alphabet s.

(** ** Scenarios for the examples *)

Module Scenario.
Import Double.

Definition sha256_prefixed : FingerprintForm :=
  {| form_family := SHA256_base64; form_prefixed := true;
     form_colons := false |}.

Definition md5_colons : FingerprintForm :=
  {| form_family := MD5_hex; form_prefixed := false; form_colons := true |}.

Definition md5_bare : FingerprintForm :=
  {| form_family := MD5_hex; form_prefixed := false; form_colons := false |}.

Definition fingerprint : string := fingerprint_in sha256_prefixed rsa_key.

Definition date : string := "Tue, 01 Jan 2019 00:00:00 GMT".

(** Before construction: an agent that lists two keys, answers the probe
    with an RSA signature and later requests with [signs]. *)
Definition boot (signs : list (result Signature)) : State Script :=
  start (script [other_key; rsa_key] (rsa_reply :: signs)).

(** After construction from [boot signs]. *)
Definition ready (signs : list (result Signature)) : State Script :=
  after (NewSSHAgentSigner fingerprint "acct" (boot signs)).

(** A signer with target [fp], held at address 0, on an agent that lists
    [keys]. *)
Definition holding (fp : string) (keys : list Key) : State Script :=
  {| world := script keys []; trace := []; heap := [signer_with fp] |}.

Definition unset : State Script :=
  start {| script_env := None; script_dial := Ok 3;
           script_keys := Ok [rsa_key]; script_signs := [rsa_reply] |}.

(** An agent that refuses every signing request, the probe included. *)
Definition refusing : State Script := start (script [rsa_key] []).

Definition ed25519_signature : Signature :=
  {| Format := "ssh-ed25519"; Blob := Bytes.of_string "ed signature" |}.

(** No agent listens at the address. *)
Definition unreachable_cause : error :=
  errors_New "dial unix /tmp/agent.sock: connect: no such file or directory".

Definition unreachable : State Script :=
  start {| script_env := Some "/tmp/agent.sock";
           script_dial := Err unreachable_cause;
           script_keys := Ok [rsa_key]; script_signs := [rsa_reply] |}.

(** A signer held at address 0 on an agent that fails to list its keys. *)
Definition list_cause : error := errors_New "agent: failed to list keys".

Definition unlisted : State Script :=
  {| world := {| script_env := Some "/tmp/agent.sock";
                 script_dial := Ok 3;
                 script_keys := Err list_cause;
                 script_signs := [] |};
     trace := [];
     heap := [signer_with fingerprint] |}.

(** The zero value of the signer, held at address 0. *)
Definition zero_signer : SSHAgentSigner :=
  {| formattedKeyFingerprint := ""; keyFingerprint := "";
     algorithm := ""; accountName := ""; keyIdentifier := "";
     agent := None; key := None |}.

Definition zero_held : State Script :=
  {| world := script [rsa_key] [rsa_reply]; trace := [];
     heap := [zero_signer] |}.

(** A second signer object for the key of [ready], under another account
    and with other texts in the fields signing does not read. *)
Definition renamed_signer : SSHAgentSigner :=
  {| formattedKeyFingerprint := "";
     keyFingerprint := fingerprint_in md5_bare rsa_key;
     algorithm := "ecdsa-sha512";
     accountName := "other";
     keyIdentifier :=
       "/acct/keys/" ++ formatPublicKeyFingerprint rsa_key true;
     agent := Some (agent_NewClient 3);
     key := Some rsa_key |}.

Definition renamed (signs : list (result Signature)) : State Script :=
  {| world := world (ready signs); trace := []; heap := [renamed_signer] |}.

End Scenario.

(** * Properties *)

(** ** Test vectors of the digests and encodings *)

Example md5_empty :
  Encoding.hex (MD5.Sum []) = "d41d8cd98f00b204e9800998ecf8427e".
Proof. vm_compute. reflexivity. Qed.

Example md5_abc :
  Encoding.hex (MD5.Sum (Bytes.of_string "abc"))
  = "900150983cd24fb0d6963f7d28e17f72".
Proof. vm_compute. reflexivity. Qed.

Example md5_two_blocks :
  Encoding.hex
    (MD5.Sum
       (Bytes.of_string
          ("1234567890123456789012345678901234567890"
           ++ "1234567890123456789012345678901234567890")))
  = "57edf4a22be3c955ac49da2e2107b67a".
Proof. vm_compute. reflexivity. Qed.

Example sha256_abc :
  Encoding.hex (SHA256.Sum (Bytes.of_string "abc"))
  = "ba7816bf8f01cfea414140de5dae2223b00361a396177a9cb410ff61f20015ad".
Proof. vm_compute. reflexivity. Qed.

Example sha256_two_blocks :
  Encoding.hex
    (SHA256.Sum
       (Bytes.of_string
          "abcdbcdecdefdefgefghfghighijhijkijkljklmklmnlmnomnopnopq"))
  = "248d6a61d20638b8e5c026930c3e6039a33ce45964ff2167f6ecedd419db06c1".
Proof. vm_compute. reflexivity. Qed.

Example base64_raw_vectors :
  map (fun s => Encoding.base64_raw (Bytes.of_string s))
    ["a"; "ab"; "abc"; "abcd~~"]
  = ["YQ"; "YWI"; "YWJj"; "YWJjZH5+"].
Proof. vm_compute. reflexivity. Qed.

Example collision_md5 :
  MD5.Sum Double.blob_a = MD5.Sum Double.blob_b
  /\ Encoding.hex (MD5.Sum Double.blob_a) = "008ee33a9d58b51cfeb425b0959121c9".
Proof. vm_compute. split; reflexivity. Qed.

Example collision_sha256 :
  Encoding.base64_raw (SHA256.Sum Double.blob_a)
  = "VLy5pP2jHk8lQwPjlZrNXkIK0YqAlJ1WowAMNxb70aA"
  /\ Encoding.base64_raw (SHA256.Sum Double.blob_b)
     = "kHdKZFWivbfRBuUzkj7L7+gTkspVvtDOgc+rLBp/Cv4".
Proof. vm_compute. split; reflexivity. Qed.

(** ** Strings *)

Lemma append_empty_r (s : string) : s ++ "" = s.
Proof. induction s as [|c s IH]; simpl; [reflexivity | now rewrite IH]. Qed.

Lemma no_colon_app (a b : string) :
  no_colon (a ++ b) = no_colon a && no_colon b.
Proof.
  induction a as [|x a IH]; simpl; [reflexivity|].
  rewrite IH. now rewrite andb_assoc.
Qed.

Lemma strip_prefix_app (p s : string) : strip_prefix p (p ++ s) = Some s.
Proof.
  induction p as [|c p IH]; simpl; [reflexivity|].
  now rewrite Ascii.eqb_refl.
Qed.

Lemma strip_prefix_inv (p s r : string) :
  strip_prefix p s = Some r -> s = p ++ r.
Proof.
  revert s. induction p as [|c p IH]; simpl; intros s Hs.
  - now inversion Hs.
  - destruct s as [|d s]; [discriminate|].
    destruct (Ascii.eqb c d) eqn:E; [|discriminate].
    apply Ascii.eqb_eq in E. subst d. f_equal. now apply IH.
Qed.

(** A prefix with a colon is not found in a string without one. *)
Lemma TrimPrefix_no_colon (p s : string) :
  no_colon p = false -> no_colon s = true -> strings_TrimPrefix s p = s.
Proof.
  intros Hp Hs. unfold strings_TrimPrefix.
  destruct (strip_prefix p s) as [r|] eqn:E; [|reflexivity].
  apply strip_prefix_inv in E. subst s.
  rewrite no_colon_app, Hp in Hs. discriminate.
Qed.

Lemma TrimPrefix_app (p s : string) : strings_TrimPrefix (p ++ s) p = s.
Proof. unfold strings_TrimPrefix. now rewrite strip_prefix_app. Qed.

Lemma colon_pairs_not_MD5 (s : string) :
  strings_TrimPrefix (colon_pairs s) "MD5:" = colon_pairs s.
Proof.
  unfold strings_TrimPrefix.
  destruct s as [|a [|b [|c r]]]; simpl; try reflexivity;
    repeat match goal with
           | |- context [if ?b then _ else _] => destruct b
           end; reflexivity.
Qed.

Lemma colon_pairs_not_SHA256 (s : string) :
  strings_TrimPrefix (colon_pairs s) "SHA256:" = colon_pairs s.
Proof.
  unfold strings_TrimPrefix.
  destruct s as [|a [|b [|c r]]]; simpl; try reflexivity;
    repeat match goal with
           | |- context [if ?b then _ else _] => destruct b
           end; reflexivity.
Qed.

Lemma ReplaceAll_colons (s : string) :
  strings_ReplaceAll s ":" "" = drop_colons s.
Proof.
  unfold strings_ReplaceAll.
  induction s as [|c s IH]; [reflexivity|].
  cbn -[Ascii.eqb]. unfold strings_HasPrefix. cbn -[Ascii.eqb].
  rewrite Ascii.eqb_sym.
  destruct (Ascii.eqb c ":"); cbn -[Ascii.eqb]; now rewrite IH.
Qed.

Lemma drop_colons_id (s : string) : no_colon s = true -> drop_colons s = s.
Proof.
  induction s as [|c s IH]; [reflexivity|].
  cbn -[Ascii.eqb].
  destruct (Ascii.eqb c ":"); cbn -[Ascii.eqb]; [discriminate|].
  intros Hs. now rewrite IH.
Qed.

Lemma drop_colons_pairs_step (n : nat) :
  forall s, String.length s <= n -> drop_colons (colon_pairs s) = drop_colons s.
Proof.
  induction n as [|n IH]; intros s Hn.
  - destruct s; [reflexivity | simpl in Hn; lia].
  - destruct s as [|a [|b [|c r]]]; try reflexivity.
    change (colon_pairs (String a (String b (String c r))))
      with (String a (String b (String ":" (colon_pairs (String c r))))).
    assert (Hr : drop_colons (colon_pairs (String c r))
                 = drop_colons (String c r)).
    { apply IH. simpl in *. lia. }
    cbn -[Ascii.eqb colon_pairs] in Hr |- *.
    rewrite Ascii.eqb_refl.
    destruct (Ascii.eqb a ":"), (Ascii.eqb b ":"); now rewrite Hr.
Qed.

Lemma drop_colons_pairs (s : string) :
  no_colon s = true -> drop_colons (colon_pairs s) = s.
Proof.
  intros Hs. rewrite (drop_colons_pairs_step (String.length s)) by lia.
  now apply drop_colons_id.
Qed.

(** ** Encodings and digests *)

Lemma hex_digit_not_colon (n : N) :
  Ascii.eqb (Encoding.hex_digit n) ":" = false.
Proof.
  unfold Encoding.hex_digit. generalize (N.to_nat n). intros m.
  do 16 (destruct m as [|m]; [reflexivity|]). destruct m; reflexivity.
Qed.

Lemma b64_digit_not_colon (n : N) :
  Ascii.eqb (Encoding.b64_digit n) ":" = false.
Proof.
  unfold Encoding.b64_digit. generalize (N.to_nat n). intros m.
  do 64 (destruct m as [|m]; [reflexivity|]). destruct m; reflexivity.
Qed.

Lemma hex_no_colon (bs : list byte) : no_colon (Encoding.hex bs) = true.
Proof.
  induction bs as [|b bs IH]; [reflexivity|].
  cbn -[Ascii.eqb Encoding.hex_digit N.div N.modulo].
  now rewrite !hex_digit_not_colon, IH.
Qed.

Lemma hex_length (bs : list byte) :
  String.length (Encoding.hex bs) = 2 * List.length bs.
Proof.
  induction bs as [|b bs IH]; [reflexivity|].
  cbn -[Encoding.hex_digit N.div N.modulo Nat.mul]. rewrite IH. lia.
Qed.

(** Induction three bytes at a time, as [base64_raw] recurses. *)
Lemma list3_ind (A : Type) (P : list A -> Prop) :
  P [] -> (forall a, P [a]) -> (forall a b, P [a; b]) ->
  (forall a b c r, P r -> P (a :: b :: c :: r)) ->
  forall l, P l.
Proof.
  intros H0 H1 H2 H3.
  assert (H : forall n l, List.length l <= n -> P l).
  { induction n as [|n IH]; intros l Hl.
    - destruct l; [exact H0 | simpl in Hl; lia].
    - destruct l as [|a [|b [|c r]]]; auto.
      apply H3, IH. simpl in Hl. lia. }
  intros l. now apply (H (List.length l)).
Qed.

Lemma base64_no_colon (bs : list byte) :
  no_colon (Encoding.base64_raw bs) = true.
Proof.
  induction bs as [|a|a b|a b c r IH] using list3_ind;
    cbn -[Ascii.eqb Encoding.b64_digit N.div N.modulo N.mul N.add];
    rewrite ?b64_digit_not_colon; auto.
Qed.

Lemma base64_length_32 (bs : list byte) :
  List.length bs = 32 -> String.length (Encoding.base64_raw bs) = 43.
Proof.
  intros H.
  do 32 (destruct bs as [|? bs]; [discriminate H|]).
  destruct bs; [reflexivity | discriminate H].
Qed.

Lemma md5_length (msg : list byte) : List.length (MD5.Sum msg) = 16.
Proof.
  unfold MD5.Sum, MD5.digest.
  destruct (fold_left MD5.block _ MD5.init) as [[[a b] c] d]. reflexivity.
Qed.

Lemma sha256_round_length (w st : list Z) (i : nat) :
  List.length (SHA256.round w st i) = List.length st.
Proof.
  unfold SHA256.round.
  do 9 (destruct st as [|? st]; [reflexivity|]). reflexivity.
Qed.

Lemma sha256_add32_length (x y : list Z) :
  List.length x = List.length y ->
  List.length (SHA256.add32 x y) = List.length x.
Proof.
  revert y. induction x as [|a x IH]; intros [|b y] H;
    simpl in *; try discriminate; auto.
Qed.

Lemma sha256_block_length (st m : list Z) :
  List.length (SHA256.block st m) = List.length st.
Proof.
  unfold SHA256.block. apply sha256_add32_length.
  generalize (seq 0 64). intros l. revert st.
  induction l as [|i l IH]; intros st; simpl; [reflexivity|].
  rewrite <- IH. now rewrite sha256_round_length.
Qed.

Lemma sha256_length (msg : list byte) : List.length (SHA256.Sum msg) = 32.
Proof.
  unfold SHA256.Sum.
  set (bl := Bytes.blocks _ _ _). clearbody bl.
  assert (H : List.length (fold_left SHA256.block bl SHA256.init) = 8).
  { change 8 with (List.length SHA256.init). generalize SHA256.init.
    induction bl as [|m bl IH]; intros st; simpl; [reflexivity|].
    now rewrite IH, sha256_block_length. }
  destruct (fold_left SHA256.block bl SHA256.init) as [|? l]; [discriminate|].
  do 8 (destruct l as [|? l]; try discriminate). reflexivity.
Qed.

Lemma digest_text_no_colon (f : digest_family) (k : Key) :
  no_colon (digest_text f k) = true.
Proof. destruct f; [apply hex_no_colon | apply base64_no_colon]. Qed.

Lemma digest_text_length (f : digest_family) (k : Key) :
  String.length (digest_text f k)
  = match f with MD5_hex => 32 | SHA256_base64 => 43 end.
Proof.
  destruct f; simpl.
  - now rewrite hex_length, md5_length.
  - apply base64_length_32, sha256_length.
Qed.

Lemma finalizedMD5_eq (k : Key) : finalizedMD5 k = digest_text MD5_hex k.
Proof. unfold finalizedMD5. simpl. apply append_empty_r. Qed.

Lemma finalizedSHA256_eq (k : Key) :
  finalizedSHA256 k = digest_text SHA256_base64 k.
Proof. reflexivity. Qed.

(** Every supported form of a key's fingerprint is stripped to the digest
    text of its family. *)
Lemma stripFingerprint_form (f : FingerprintForm) (k : Key) :
  stripFingerprint (fingerprint_in f k) = digest_text (form_family f) k.
Proof.
  pose proof (digest_text_no_colon (form_family f) k) as Hd.
  unfold stripFingerprint, fingerprint_in.
  rewrite ReplaceAll_colons.
  destruct f as [fam [|] [|]]; cbn [form_family form_prefixed form_colons] in *.
  - destruct fam; cbn [family_prefix].
    + rewrite TrimPrefix_app, colon_pairs_not_SHA256.
      now apply drop_colons_pairs.
    + replace (strings_TrimPrefix ("SHA256:" ++ _) "MD5:")
        with ("SHA256:" ++ colon_pairs (digest_text SHA256_base64 k))
        by reflexivity.
      rewrite TrimPrefix_app. now apply drop_colons_pairs.
  - destruct fam; cbn [family_prefix].
    + rewrite TrimPrefix_app.
      rewrite TrimPrefix_no_colon; [|reflexivity|assumption].
      now apply drop_colons_id.
    + replace (strings_TrimPrefix ("SHA256:" ++ _) "MD5:")
        with ("SHA256:" ++ digest_text SHA256_base64 k) by reflexivity.
      rewrite TrimPrefix_app. now apply drop_colons_id.
  - change ("" ++ ?x) with x.
    rewrite colon_pairs_not_MD5, colon_pairs_not_SHA256.
    now apply drop_colons_pairs.
  - change ("" ++ ?x) with x.
    rewrite (TrimPrefix_no_colon "MD5:"); [|reflexivity|assumption].
    rewrite TrimPrefix_no_colon; [|reflexivity|assumption].
    now apply drop_colons_id.
Qed.

(** ** The key scan *)

Lemma key_matches_iff (t : string) (k : Key) :
  key_matches t k = true
  <-> t = digest_text MD5_hex k \/ t = digest_text SHA256_base64 k.
Proof.
  unfold key_matches.
  rewrite orb_true_iff, !String.eqb_eq, finalizedMD5_eq, finalizedSHA256_eq.
  tauto.
Qed.

Lemma scan_from (t : string) (keys : list Key) (acc : option Key) :
  fold_left
    (fun matchingKey k => if key_matches t k then Some k else matchingKey)
    keys acc
  = match scanKeys t keys with
    | Some k => Some k
    | None => acc
    end.
Proof.
  unfold scanKeys. revert acc.
  induction keys as [|k keys IH]; intros acc; simpl; [reflexivity|].
  rewrite IH. rewrite (IH (if key_matches t k then Some k else None)).
  destruct (fold_left _ keys None); [reflexivity|].
  destruct (key_matches t k); reflexivity.
Qed.

Lemma scanKeys_cons (t : string) (k : Key) (keys : list Key) :
  scanKeys t (k :: keys)
  = match scanKeys t keys with
    | Some k' => Some k'
    | None => if key_matches t k then Some k else None
    end.
Proof. unfold scanKeys at 1. simpl. apply scan_from. Qed.

Lemma scanKeys_none_iff (t : string) (keys : list Key) :
  scanKeys t keys = None
  <-> forall k, In k keys -> key_matches t k = false.
Proof.
  induction keys as [|k keys IH].
  - split; [intros _ k [] | reflexivity].
  - rewrite scanKeys_cons. split.
    + destruct (scanKeys t keys); [discriminate|].
      destruct (key_matches t k) eqn:E; [discriminate|].
      intros _ k' [<-|Hin]; [assumption | now apply IH].
    + intros H. destruct IH as [_ IH]. rewrite IH.
      * now rewrite (H k (or_introl eq_refl)).
      * intros k' Hin. apply H. now right.
Qed.

Lemma scanKeys_last (t : string) (l1 l2 : list Key) (k : Key) :
  key_matches t k = true ->
  (forall k', In k' l2 -> key_matches t k' = false) ->
  scanKeys t (l1 ++ k :: l2) = Some k.
Proof.
  intros Hk Hl2. induction l1 as [|a l1 IH]; simpl app.
  - rewrite scanKeys_cons.
    destruct (scanKeys_none_iff t l2) as [_ H]. rewrite (H Hl2).
    now rewrite Hk.
  - rewrite scanKeys_cons. now rewrite IH.
Qed.

Lemma scanKeys_ext (t1 t2 : string) (keys : list Key) :
  (forall k, In k keys -> key_matches t1 k = key_matches t2 k) ->
  scanKeys t1 keys = scanKeys t2 keys.
Proof.
  induction keys as [|k keys IH]; intros H; [reflexivity|].
  rewrite !scanKeys_cons, IH, (H k (or_introl eq_refl)); [reflexivity|].
  intros k' Hin. apply H. now right.
Qed.

(** A hexadecimal MD5 text is never a base64 SHA-256 text: 32 characters
    against 43. *)
Lemma digest_families_differ (k k' : Key) :
  digest_text MD5_hex k <> digest_text SHA256_base64 k'.
Proof.
  intros H. apply (f_equal String.length) in H.
  rewrite !digest_text_length in H. discriminate.
Qed.

(** ** Running the methods *)

Section Runs.

Context {W : Type} `{Host W} `{Package}.

Lemma nth_error_snoc (h : list SSHAgentSigner) (x : SSHAgentSigner) :
  nth_error (h ++ [x]) (List.length h) = Some x.
Proof. induction h as [|a h IH]; simpl; auto. Qed.

Lemma update_snoc (f : SSHAgentSigner -> SSHAgentSigner)
    (h : list SSHAgentSigner) (x : SSHAgentSigner) :
  update (List.length h) f (h ++ [x]) = (h ++ [f x])%list.
Proof. induction h as [|a h IH]; simpl; [reflexivity | now rewrite IH]. Qed.

Lemma MatchKey_run (st : State W) (p : ptr) (s : SSHAgentSigner)
    (c : AgentClient) :
  nth_error (heap st) p = Some s ->
  agent s = Some c ->
  MatchKey p st
  = (Returned
       match fst (host_List (client_conn c) (world st)) with
       | Err err =>
           Err (errwrap_Wrapf "Error listing keys in SSH Agent: %s" err)
       | Ok keys =>
           match scanKeys (stripFingerprint (keyFingerprint s)) keys with
           | None => Err (KeyNotFoundError (keyFingerprint s))
           | Some k => Ok k
           end
       end,
     emit (EvList (client_conn c))
       (snd (host_List (client_conn c) (world st))) st).
Proof.
  intros Hs Hc. unfold MatchKey, bind, load, agent_List. rewrite Hs, Hc.
  destruct (host_List (client_conn c) (world st)) as [[keys|err] w]; simpl.
  - destruct (scanKeys _ keys); [reflexivity|].
    unfold ret, fmt_Errorf, errors_New, KeyNotFoundError. simpl.
    now rewrite append_empty_r.
  - reflexivity.
Qed.

End Runs.

(** ** Signing *)

Section Signing.

Context {W : Type} `{Host W} `{Package}.

Lemma Sprintf_header (keyId label text : string) :
  fmt_Sprintf authorizationHeaderFormat
    [AString keyId; AString label; AString headerName; AString text]
  = header_value keyId label text.
Proof. reflexivity. Qed.

Lemma Sprintf_date (d : string) :
  fmt_Sprintf "%s: %s" [AString headerName; AString d] = "date: " ++ d.
Proof. simpl. now rewrite append_empty_r. Qed.

Lemma Errorf_unsupported (format : string) :
  fmt_Errorf "Unsupported algorithm from SSH agent: %s" [AString format]
  = UnsupportedAlgorithmError format.
Proof.
  unfold fmt_Errorf, errors_New, UnsupportedAlgorithmError. simpl.
  now rewrite append_empty_r.
Qed.

(** The normalizer of the specification succeeds exactly when the code's
    switch does, with the same text and label. *)
Lemma decodeSignature_Normalize (sig : Signature) (text label : string) :
  Normalize (Format sig) (Blob sig) = Some (text, label)
  <-> exists a, decodeSignature sig = Ok a
                /\ String_ a = text /\ SignatureType a = label.
Proof.
  unfold Normalize, decodeSignature.
  destruct (keyFormatToKeyType (Format sig)) as [fam|e].
  - destruct (fam =? "rsa").
    + destruct (newRSASignature (Blob sig)) as [a|e]; split.
      * intros E. inversion E. now exists a.
      * intros (a' & E & <- & <-). now inversion E.
      * discriminate.
      * intros (a' & E & _). discriminate.
    + destruct (fam =? "ecdsa").
      * destruct (newECDSASignature (Blob sig)) as [a|e]; split.
        -- intros E. inversion E. now exists a.
        -- intros (a' & E & <- & <-). now inversion E.
        -- discriminate.
        -- intros (a' & E & _). discriminate.
      * split; [discriminate | intros (a' & E & _); discriminate].
  - split; [discriminate | intros (a' & E & _); discriminate].
Qed.

Lemma decodeSignature_unsupported (sig : Signature) (family : string) :
  keyFormatToKeyType (Format sig) = Ok family ->
  family <> "rsa" -> family <> "ecdsa" ->
  decodeSignature sig = Err (UnsupportedAlgorithmError (Format sig)).
Proof.
  intros Hf Hr He. unfold decodeSignature. rewrite Hf.
  apply String.eqb_neq in Hr, He. now rewrite Hr, He.
Qed.

Lemma Sign_run (st : State W) (p : ptr) (s : SSHAgentSigner)
    (c : AgentClient) (d : string) :
  nth_error (heap st) p = Some s ->
  agent s = Some c ->
  let data := Bytes.of_string ("date: " ++ d) in
  let reply := host_Sign (client_conn c) (key s) data (world st) in
  Sign p d st
  = (Returned
       match fst reply with
       | Err err =>
           Err (errwrap_Wrapf "Error signing date header: {{err}}" err)
       | Ok sig =>
           match decodeSignature sig with
           | Err err => Err err
           | Ok a =>
               Ok (header_value (keyIdentifier s) (SignatureType a)
                     (String_ a))
           end
       end,
     emit (EvSign (client_conn c) (key s) data) (snd reply) st).
Proof.
  intros Hs Hc data reply. subst data reply.
  unfold Sign, bind, load, agent_Sign. rewrite Hs, Hc, Sprintf_date.
  destruct (host_Sign _ _ _ _) as [[sig|err] w]; [|reflexivity].
  cbn [fst snd]. unfold decodeSignature.
  destruct (keyFormatToKeyType (Format sig)) as [fam|e]; [|reflexivity].
  destruct (fam =? "rsa").
  - destruct (newRSASignature (Blob sig)); reflexivity.
  - destruct (fam =? "ecdsa").
    + destruct (newECDSASignature (Blob sig)); reflexivity.
    + unfold ret. now rewrite Errorf_unsupported.
Qed.

Lemma SignRaw_run (st : State W) (p : ptr) (s : SSHAgentSigner)
    (c : AgentClient) (toSign : string) :
  nth_error (heap st) p = Some s ->
  agent s = Some c ->
  let data := Bytes.of_string toSign in
  let reply := host_Sign (client_conn c) (key s) data (world st) in
  SignRaw p toSign st
  = (Returned
       match fst reply with
       | Err err => Err (errwrap_Wrapf "Error signing string: {{err}}" err)
       | Ok sig =>
           match decodeSignature sig with
           | Err err => Err err
           | Ok a => Ok (String_ a, SignatureType a)
           end
       end,
     emit (EvSign (client_conn c) (key s) data) (snd reply) st).
Proof.
  intros Hs Hc data reply. subst data reply.
  unfold SignRaw, bind, load, agent_Sign. rewrite Hs, Hc.
  destruct (host_Sign _ _ _ _) as [[sig|err] w]; [|reflexivity].
  cbn [fst snd]. unfold decodeSignature.
  destruct (keyFormatToKeyType (Format sig)) as [fam|e]; [|reflexivity].
  destruct (fam =? "rsa").
  - destruct (newRSASignature (Blob sig)); reflexivity.
  - destruct (fam =? "ecdsa").
    + destruct (newECDSASignature (Blob sig)); reflexivity.
    + unfold ret. now rewrite Errorf_unsupported.
Qed.

(** A call through a pointer to no object, or on a signer without an
    agent, panics before anything leaves the package. *)
Lemma Sign_panics (st : State W) (p : ptr) (d : string) :
  (nth_error (heap st) p = None
   \/ exists s, nth_error (heap st) p = Some s /\ agent s = None) ->
  Sign p d st = (Panicked nil_dereference, st).
Proof.
  unfold Sign, bind, load, agent_Sign.
  intros [Hn|(s & Hs & Ha)]; [now rewrite Hn | now rewrite Hs, Ha].
Qed.

Lemma SignRaw_panics (st : State W) (p : ptr) (toSign : string) :
  (nth_error (heap st) p = None
   \/ exists s, nth_error (heap st) p = Some s /\ agent s = None) ->
  SignRaw p toSign st = (Panicked nil_dereference, st).
Proof.
  unfold SignRaw, bind, load, agent_Sign.
  intros [Hn|(s & Hs & Ha)]; [now rewrite Hn | now rewrite Hs, Ha].
Qed.

End Signing.

(** ** Construction *)

Section Construction.

Context {W : Type} `{Host W} `{Package}.

Lemma Sprintf_keyIdentifier (account fingerprint : string) :
  fmt_Sprintf "/%s/keys/%s" [AString account; AString fingerprint]
  = "/" ++ account ++ "/keys/" ++ fingerprint.
Proof. simpl. now rewrite append_empty_r. Qed.

Lemma Errorf_cannot_sign (cause : error) :
  fmt_Errorf "Cannot sign using ssh agent: %s" [AString (Error cause)]
  = CannotSignError cause.
Proof.
  unfold fmt_Errorf, errors_New, CannotSignError. simpl.
  now rewrite append_empty_r.
Qed.

(** What [NewSSHAgentSigner] returns and the state it leaves, in terms of
    the host's replies. *)
Lemma NewSSHAgentSigner_run (fp account : string) (st : State W) :
  NewSSHAgentSigner fp account st
  = let st1 := emit (EvLookupEnv "SSH_AUTH_SOCK") (world st) st in
    match host_LookupEnv "SSH_AUTH_SOCK" (world st) with
    | None => (Returned (Err ErrUnsetEnvVar), st1)
    | Some address =>
        let dial := host_Dial "unix" address (world st) in
        let st2 := emit (EvDial "unix" address) (snd dial) st1 in
        match fst dial with
        | Err err =>
            (Returned
               (Err (errwrap_Wrapf "Error dialing SSH agent: {{err}}" err)),
             st2)
        | Ok conn =>
            let listed := host_List conn (snd dial) in
            let t3 := (trace st2 ++ [EvList conn])%list in
            let st3 :=
              {| world := snd listed; trace := t3;
                 heap := heap st ++ [allocated fp account conn] |} in
            match fst listed with
            | Err err =>
                (Returned
                   (Err (errwrap_Wrapf
                           "Error listing keys in SSH Agent: %s" err)),
                 st3)
            | Ok keys =>
                match scanKeys (stripFingerprint fp) keys with
                | None => (Returned (Err (KeyNotFoundError fp)), st3)
                | Some k =>
                    let signed := host_Sign conn (Some k) probe (snd listed) in
                    let st4 alg :=
                      {| world := snd signed;
                         trace := t3 ++ [EvSign conn (Some k) probe];
                         heap := heap st
                                 ++ [initialized fp account conn k alg] |} in
                    match fst signed with
                    | Err err =>
                        (Returned
                           (Err (CannotSignError
                                   (errwrap_Wrapf
                                      "Error signing string: {{err}}" err))),
                         st4 "")
                    | Ok sig =>
                        match decodeSignature sig with
                        | Err err =>
                            (Returned (Err (CannotSignError err)), st4 "")
                        | Ok a =>
                            (Returned (Ok (List.length (heap st))),
                             st4 (SignatureType a))
                        end
                    end
                end
            end
        end
    end.
Proof.
  destruct st as [w t h].
  unfold NewSSHAgentSigner, bind at 1, os_LookupEnv.
  unfold emit; unfold emit; cbn [world trace heap].
  destruct (host_LookupEnv "SSH_AUTH_SOCK" w) as [address|]; [|reflexivity].
  unfold bind at 1, net_Dial. unfold emit; unfold emit; cbn [world trace heap].
  destruct (host_Dial "unix" address w) as [[conn|err] w1];
    cbn [fst snd]; [|reflexivity].
  unfold bind at 1, alloc. unfold emit; cbn [world trace heap].
  unfold bind at 1.
  rewrite (MatchKey_run _ _ (allocated fp account conn) (agent_NewClient conn))
    by (try apply nth_error_snoc; reflexivity).
  unfold emit; cbn [world trace heap client_conn allocated keyFingerprint].
  destruct (host_List conn w1) as [[keys|err] w2]; cbn [fst snd];
    [|reflexivity].
  destruct (scanKeys (stripFingerprint fp) keys) as [k|]; [|reflexivity].
  unfold bind at 1, store at 1. unfold emit; cbn [world trace heap].
  rewrite nth_error_snoc, update_snoc.
  unfold bind at 1, load at 1. unfold emit; cbn [world trace heap].
  rewrite nth_error_snoc. cbn [key set_key].
  unfold bind at 1, store at 1. unfold emit; cbn [world trace heap].
  rewrite nth_error_snoc, update_snoc.
  unfold bind at 1, load at 1. unfold emit; cbn [world trace heap].
  rewrite nth_error_snoc.
  unfold bind at 1, store at 1. unfold emit; cbn [world trace heap].
  rewrite nth_error_snoc, update_snoc.
  unfold bind at 1.
  match goal with
  | |- context [SignRaw _ _ {| world := _; trace := _; heap := (_ ++ [?s])%list |}] =>
      rewrite (SignRaw_run _ _ s (agent_NewClient conn))
        by (try apply nth_error_snoc; reflexivity)
  end.
  unfold emit; cbn [world trace heap client_conn key set_keyIdentifier
       set_formattedKeyFingerprint set_key].
  fold probe.
  destruct (host_Sign conn (Some k) probe w2) as [[sig|err] w3];
    cbn [fst snd].
  - destruct (decodeSignature sig) as [a|err].
    + unfold bind at 1, store at 1. unfold emit; cbn [world trace heap].
      rewrite nth_error_snoc, update_snoc. unfold ret.
      cbn -[fmt_Sprintf append]. rewrite Sprintf_keyIdentifier. reflexivity.
    + unfold ret. rewrite Errorf_cannot_sign.
      cbn -[fmt_Sprintf append]. rewrite Sprintf_keyIdentifier. reflexivity.
  - unfold ret. rewrite Errorf_cannot_sign.
    cbn -[fmt_Sprintf append]. rewrite Sprintf_keyIdentifier. reflexivity.
Qed.

End Construction.

(** ** The claims *)

Section Claims.

Context {W : Type} `{Host W} `{Package}.

Lemma construction_error_message (fp : string) (e : error) :
  construction_error fp e -> Error e <> "".
Proof. intros []; cbn; discriminate. Qed.

Ltac fails_with c :=
  right; eexists; split; [reflexivity|];
  split; [exact c | exact (construction_error_message _ _ c)].

(** C6. With the environment setting SSH_AUTH_SOCK unset, construction
    returns the configuration error, whatever the fingerprint and the
    account; the world is left as it was and the only call that left the
    package is the environment lookup: no dial, no List, no Sign. *)
Theorem NewSSHAgentSigner_unset_env (fp account : string) (st : State W) :
  host_LookupEnv "SSH_AUTH_SOCK" (world st) = None ->
  NewSSHAgentSigner fp account st
  = (Returned (Err ConfigError),
     {| world := world st;
        trace := trace st ++ [EvLookupEnv "SSH_AUTH_SOCK"];
        heap := heap st |})
  /\ forall e, In e (trace (after (NewSSHAgentSigner fp account st))) ->
               In e (trace st) \/ is_network e = false.
Proof.
  intros Henv. rewrite NewSSHAgentSigner_run. cbv zeta. rewrite Henv.
  split; [reflexivity|].
  intros e. unfold after, emit. cbn [snd trace].
  rewrite in_app_iff. intros [Hin|[<-|[]]]; [now left | now right].
Qed.

(** C7. Construction returns either a pointer to a fully initialized
    signer and no error, or an error of section 7 with a non-empty message
    and no pointer; it never panics.  Fully initialized: the lookup, the
    dial, the listing and the scan succeeded, the probe of "HelloWorld"
    through [SignRaw] on the signer built so far returned a text and a
    label, and the object behind the pointer has its seven fields set, the
    fingerprint and the account as given, the agent on the dialled
    connection, the matched key, its formatted fingerprint, the key
    identifier made of the account and that fingerprint, and as algorithm
    the label the probe returned, which [DefaultAlgorithm] then returns.
    When every step up to the probe succeeds and the probe fails,
    construction fails with that failure as its cause. *)
Theorem NewSSHAgentSigner_atomic (fp account : string) (st : State W) :
  ((exists address conn w1 keys w2 k text alg,
       host_LookupEnv "SSH_AUTH_SOCK" (world st) = Some address
       /\ host_Dial "unix" address (world st) = (Ok conn, w1)
       /\ host_List conn w1 = (Ok keys, w2)
       /\ scanKeys (stripFingerprint fp) keys = Some k
       /\ value
            (SignRaw (List.length (heap st)) "HelloWorld"
               {| world := w2;
                  trace := trace st ++ [EvLookupEnv "SSH_AUTH_SOCK";
                                        EvDial "unix" address; EvList conn];
                  heap := heap st ++ [initialized fp account conn k ""] |})
          = Returned (Ok (text, alg))
       /\ value (NewSSHAgentSigner fp account st)
          = Returned (Ok (List.length (heap st)))
       /\ nth_error (heap (after (NewSSHAgentSigner fp account st)))
            (List.length (heap st))
          = Some (initialized fp account conn k alg)
       /\ value
            (DefaultAlgorithm (List.length (heap st))
               (after (NewSSHAgentSigner fp account st)))
          = Returned alg
       /\ value
            (KeyFingerprint (List.length (heap st))
               (after (NewSSHAgentSigner fp account st)))
          = Returned (formatPublicKeyFingerprint k true))
   \/ (exists e,
          value (NewSSHAgentSigner fp account st) = Returned (Err e)
          /\ construction_error fp e /\ Error e <> ""))
  /\ (forall address conn w1 keys w2 k cause,
         host_LookupEnv "SSH_AUTH_SOCK" (world st) = Some address ->
         host_Dial "unix" address (world st) = (Ok conn, w1) ->
         host_List conn w1 = (Ok keys, w2) ->
         scanKeys (stripFingerprint fp) keys = Some k ->
         value
           (SignRaw (List.length (heap st)) "HelloWorld"
              {| world := w2;
                 trace := trace st ++ [EvLookupEnv "SSH_AUTH_SOCK";
                                       EvDial "unix" address; EvList conn];
                 heap := heap st ++ [initialized fp account conn k ""] |})
         = Returned (Err cause) ->
         value (NewSSHAgentSigner fp account st)
         = Returned (Err (CannotSignError cause))).
Proof.
  split.
  - rewrite NewSSHAgentSigner_run. cbv zeta. unfold value, after.
    destruct (host_LookupEnv _ _) as [address|] eqn:Henv;
      [|fails_with (ce_config fp)].
    destruct (host_Dial _ _ _) as [[conn|err] w1] eqn:Hdial; cbn [fst snd];
      [|fails_with (ce_dial fp err)].
    destruct (host_List _ _) as [[keys|err] w2] eqn:Hlist; cbn [fst snd];
      [|fails_with (ce_list fp err)].
    destruct (scanKeys _ _) as [k|] eqn:Hscan; [|fails_with (ce_no_key fp)].
    destruct (host_Sign _ _ _ _) as [[sig|err] w3] eqn:Hsign; cbn [fst snd];
      [|fails_with
          (ce_probe fp (errwrap_Wrapf "Error signing string: {{err}}" err))].
    destruct (decodeSignature sig) as [a|err] eqn:Ha;
      [|fails_with (ce_probe fp err)].
    left.
    exists address, conn, w1, keys, w2, k, (String_ a), (SignatureType a).
    cbn [fst snd heap].
    assert (Hobj : nth_error
                     (heap st
                      ++ [initialized fp account conn k (SignatureType a)])
                     (List.length (heap st))
                   = Some (initialized fp account conn k (SignatureType a)))
      by apply nth_error_snoc.
    split; [reflexivity|]. split; [exact Hdial|]. split; [exact Hlist|].
    split; [exact Hscan|]. split.
    { rewrite (SignRaw_run _ _ (initialized fp account conn k "")
                 (agent_NewClient conn))
        by (try apply nth_error_snoc; reflexivity).
      cbv zeta. cbn [fst snd world client_conn initialized key].
      fold probe. rewrite Hsign. cbn [fst]. now rewrite Ha. }
    split; [reflexivity|]. split; [exact Hobj|]. split.
    + unfold DefaultAlgorithm, bind, load. cbn [heap]. now rewrite Hobj.
    + unfold KeyFingerprint, bind, load. cbn [heap]. now rewrite Hobj.
  - intros address conn w1 keys w2 k cause Henv Hdial Hlist Hscan.
    rewrite NewSSHAgentSigner_run. cbv zeta.
    rewrite Henv, Hdial. cbn [fst snd]. rewrite Hlist. cbn [fst snd].
    rewrite Hscan.
    rewrite (SignRaw_run _ _ (initialized fp account conn k "")
               (agent_NewClient conn))
      by (try apply nth_error_snoc; reflexivity).
    cbv zeta. unfold value. cbn [fst snd world client_conn initialized key].
    fold probe.
    destruct (host_Sign conn (Some k) probe w2) as [[sig|err] w3];
      cbn [fst snd].
    + destruct (decodeSignature sig) as [a|err]; [discriminate|].
      intros E. now inversion E.
    + intros E. now inversion E.
Qed.

(** The heap is read, never written, by the operations of a constructed
    signer. *)
Lemma Sign_heap (p : ptr) (d : string) (st : State W) :
  heap (after (Sign p d st)) = heap st.
Proof.
  unfold after.
  destruct (nth_error (heap st) p) as [s|] eqn:Hs.
  - destruct (agent s) as [c|] eqn:Hc.
    + now rewrite (Sign_run st p s c d Hs Hc).
    + rewrite Sign_panics; [reflexivity | right; now exists s].
  - rewrite Sign_panics; [reflexivity | now left].
Qed.

Lemma SignRaw_heap (p : ptr) (x : string) (st : State W) :
  heap (after (SignRaw p x st)) = heap st.
Proof.
  unfold after.
  destruct (nth_error (heap st) p) as [s|] eqn:Hs.
  - destruct (agent s) as [c|] eqn:Hc.
    + now rewrite (SignRaw_run st p s c x Hs Hc).
    + rewrite SignRaw_panics; [reflexivity | right; now exists s].
  - rewrite SignRaw_panics; [reflexivity | now left].
Qed.

Lemma getters_run (p : ptr) (s : SSHAgentSigner) (st : State W) :
  nth_error (heap st) p = Some s ->
  KeyFingerprint p st = (Returned (formattedKeyFingerprint s), st)
  /\ DefaultAlgorithm p st = (Returned (algorithm s), st).
Proof.
  intros Hs. unfold KeyFingerprint, DefaultAlgorithm, bind, load.
  now rewrite Hs.
Qed.

Lemma NewSSHAgentSigner_ok (fp account : string) (st0 st1 : State W)
    (p : ptr) :
  NewSSHAgentSigner fp account st0 = (Returned (Ok p), st1) ->
  exists conn k alg,
    p = List.length (heap st0)
    /\ heap st1 = (heap st0 ++ [initialized fp account conn k alg])%list
    /\ nth_error (heap st1) p = Some (initialized fp account conn k alg).
Proof.
  rewrite NewSSHAgentSigner_run. cbv zeta.
  destruct (host_LookupEnv _ _) as [address|]; [|discriminate].
  destruct (host_Dial _ _ _) as [[conn|err] w1]; cbn [fst snd];
    [|discriminate].
  destruct (host_List _ _) as [[keys|err] w2]; cbn [fst snd];
    [|discriminate].
  destruct (scanKeys _ _) as [k|]; [|discriminate].
  destruct (host_Sign _ _ _ _) as [[sig|err] w3]; cbn [fst snd];
    [|discriminate].
  destruct (decodeSignature sig) as [a|err]; [|discriminate].
  intros E. inversion E; subst. exists conn, k, (SignatureType a).
  cbn [heap]. repeat split. apply nth_error_snoc.
Qed.

(** C9. After a successful construction the signer's key and agent are
    non-nil, and [Sign], [SignRaw], [KeyFingerprint] and
    [DefaultAlgorithm] leave the heap, and so every field of the signer, as
    construction set them; the two getters return the stored values. *)
Theorem constructed_signer_is_immutable (fp account : string)
    (st0 st1 : State W) (p : ptr) :
  NewSSHAgentSigner fp account st0 = (Returned (Ok p), st1) ->
  exists s,
    nth_error (heap st1) p = Some s
    /\ key s <> None /\ agent s <> None
    /\ keyFingerprint s = fp /\ accountName s = account
    /\ forall st, nth_error (heap st) p = Some s ->
         (forall d, heap (after (Sign p d st)) = heap st
                    /\ nth_error (heap (after (Sign p d st))) p = Some s)
         /\ (forall x, heap (after (SignRaw p x st)) = heap st
                       /\ nth_error (heap (after (SignRaw p x st))) p
                          = Some s)
         /\ KeyFingerprint p st = (Returned (formattedKeyFingerprint s), st)
         /\ DefaultAlgorithm p st = (Returned (algorithm s), st).
Proof.
  intros Hnew.
  destruct (NewSSHAgentSigner_ok _ _ _ _ _ Hnew) as (conn & k & alg & _ & _ & Hs).
  exists (initialized fp account conn k alg).
  split; [exact Hs|]. repeat split; try discriminate.
  - apply Sign_heap.
  - now rewrite Sign_heap.
  - apply SignRaw_heap.
  - now rewrite SignRaw_heap.
  - now apply getters_run.
  - now apply getters_run.
Qed.

End Claims.

Section SigningClaims.

Context {W : Type} `{Host W} `{Package}.

(** C1. For a signer that construction returned, [Sign d] issues exactly
    one call, a signing request to the agent for the signer's key over the
    bytes of "date: " followed by [d], and returns a header exactly when
    the agent's signature normalizes: the header is then keyId, algorithm,
    headers and signature, in that order and each in double quotes, with
    the signer's key identifier, the label and the text of that
    normalization, and the literal header name date. *)
Theorem Sign_header (fp account : string) (st0 st1 : State W) (p : ptr) :
  NewSSHAgentSigner fp account st0 = (Returned (Ok p), st1) ->
  exists s c k,
    nth_error (heap st1) p = Some s
    /\ agent s = Some c /\ key s = Some k
    /\ forall d st,
         nth_error (heap st) p = Some s ->
         let data := Bytes.of_string ("date: " ++ d) in
         let reply := host_Sign (client_conn c) (Some k) data (world st) in
         after (Sign p d st)
         = {| world := snd reply;
              trace := trace st ++ [EvSign (client_conn c) (Some k) data];
              heap := heap st |}
         /\ (forall sig text label,
                fst reply = Ok sig ->
                Normalize (Format sig) (Blob sig) = Some (text, label) ->
                value (Sign p d st)
                = Returned
                    (Ok (header_value (keyIdentifier s) label text)))
         /\ (forall h,
                value (Sign p d st) = Returned (Ok h) ->
                exists sig text label,
                  fst reply = Ok sig
                  /\ Normalize (Format sig) (Blob sig) = Some (text, label)
                  /\ h = header_value (keyIdentifier s) label text).
Proof.
  intros Hnew.
  destruct (NewSSHAgentSigner_ok _ _ _ _ _ Hnew)
    as (conn & k & alg & _ & _ & Hs).
  exists (initialized fp account conn k alg), (agent_NewClient conn), k.
  split; [exact Hs|]. split; [reflexivity|]. split; [reflexivity|].
  intros d st Hst. cbv zeta.
  rewrite (Sign_run st p _ (agent_NewClient conn) d Hst eq_refl).
  cbv zeta. unfold after, value, emit.
  cbn [fst snd key keyIdentifier initialized client_conn].
  destruct (host_Sign conn (Some k) _ (world st)) as [reply w].
  cbn [fst snd].
  split; [reflexivity|]. split.
  - intros sig text label Hr Hn. rewrite Hr.
    apply decodeSignature_Normalize in Hn.
    destruct Hn as (a & -> & <- & <-). reflexivity.
  - intros h. destruct reply as [sig|err]; [|discriminate].
    destruct (decodeSignature sig) as [a|err] eqn:Ha; [|discriminate].
    intros E. inversion E; subst h.
    exists sig, (String_ a), (SignatureType a).
    repeat split. apply decodeSignature_Normalize. now exists a.
Qed.

(** C4. When the agent answers a signing request with a signature whose
    format tag is classified into a family other than "rsa" and "ecdsa",
    [Sign] and [SignRaw] both return the error "Unsupported algorithm from
    SSH agent: " followed by the agent's format tag: a returned error, not
    a panic and not a value. *)
Theorem unsupported_family_rejected (st : State W) (p : ptr)
    (s : SSHAgentSigner) (c : AgentClient) (sig : Signature)
    (family : string) :
  nth_error (heap st) p = Some s ->
  agent s = Some c ->
  keyFormatToKeyType (Format sig) = Ok family ->
  family <> "rsa" -> family <> "ecdsa" ->
  (forall d,
      fst (host_Sign (client_conn c) (key s)
             (Bytes.of_string ("date: " ++ d)) (world st)) = Ok sig ->
      value (Sign p d st)
      = Returned (Err (UnsupportedAlgorithmError (Format sig))))
  /\ (forall toSign,
         fst (host_Sign (client_conn c) (key s)
                (Bytes.of_string toSign) (world st)) = Ok sig ->
         value (SignRaw p toSign st)
         = Returned (Err (UnsupportedAlgorithmError (Format sig))))
  /\ Error (UnsupportedAlgorithmError (Format sig))
     = "Unsupported algorithm from SSH agent: " ++ Format sig.
Proof.
  intros Hs Hc Hf Hr He.
  pose proof (decodeSignature_unsupported sig family Hf Hr He) as Hd.
  repeat split.
  - intros d Hreply. rewrite (Sign_run st p s c d Hs Hc). cbv zeta.
    unfold value. cbn [fst]. now rewrite Hreply, Hd.
  - intros x Hreply. rewrite (SignRaw_run st p s c x Hs Hc). cbv zeta.
    unfold value. cbn [fst]. now rewrite Hreply, Hd.
Qed.

(** C8. From the same state, so with the same agent answering, [Sign d]
    and [SignRaw] of "date: " followed by [d] issue the same request and
    leave the same state; [SignRaw] returns a pair of text and label
    exactly when [Sign] returns a header, and the header carries that text
    and that label; one fails when the other does and one panics when the
    other does. *)
Theorem Sign_SignRaw_same_pipeline (p : ptr) (d : string) (st : State W) :
  after (Sign p d st) = after (SignRaw p ("date: " ++ d) st)
  /\ (forall text label,
         value (SignRaw p ("date: " ++ d) st) = Returned (Ok (text, label)) ->
         exists s,
           nth_error (heap st) p = Some s
           /\ value (Sign p d st)
              = Returned (Ok (header_value (keyIdentifier s) label text)))
  /\ (forall h,
         value (Sign p d st) = Returned (Ok h) ->
         exists s text label,
           nth_error (heap st) p = Some s
           /\ value (SignRaw p ("date: " ++ d) st)
              = Returned (Ok (text, label))
           /\ h = header_value (keyIdentifier s) label text)
  /\ ((exists e, value (Sign p d st) = Returned (Err e))
      <-> (exists e, value (SignRaw p ("date: " ++ d) st) = Returned (Err e)))
  /\ ((exists r, value (Sign p d st) = Panicked r)
      <-> (exists r, value (SignRaw p ("date: " ++ d) st) = Panicked r)).
Proof.
  destruct (nth_error (heap st) p) as [s|] eqn:Hs.
  - destruct (agent s) as [c|] eqn:Hc.
    + rewrite (Sign_run st p s c d Hs Hc).
      rewrite (SignRaw_run st p s c ("date: " ++ d) Hs Hc).
      cbv zeta. unfold after, value. cbn [fst snd].
      destruct (fst (host_Sign _ _ _ _)) as [sig|err].
      * destruct (decodeSignature sig) as [a|err].
        -- split; [reflexivity|]. split; [|split; [|split]].
           ++ intros text label E. inversion E; subst. now exists s.
           ++ intros h E. inversion E; subst.
              now exists s, (String_ a), (SignatureType a).
           ++ split; intros (e & E); discriminate.
           ++ split; intros (e & E); discriminate.
        -- split; [reflexivity|]. split; [|split; [|split]].
           ++ discriminate.
           ++ discriminate.
           ++ split; intros _; now eexists.
           ++ split; intros (e & E); discriminate.
      * split; [reflexivity|]. split; [|split; [|split]].
        -- discriminate.
        -- discriminate.
        -- split; intros _; now eexists.
        -- split; intros (e & E); discriminate.
    + rewrite Sign_panics, SignRaw_panics by (right; now exists s).
      unfold after, value. cbn [fst snd].
      split; [reflexivity|]. split; [|split; [|split]].
      * discriminate.
      * discriminate.
      * split; intros (e & E); discriminate.
      * split; intros _; now eexists.
  - rewrite Sign_panics, SignRaw_panics by now left.
    unfold after, value. cbn [fst snd].
    split; [reflexivity|]. split; [|split; [|split]].
    + discriminate.
    + discriminate.
    + split; intros (e & E); discriminate.
    + split; intros _; now eexists.
Qed.

(** Two signers that differ at most in the stored
    default algorithm, asked to sign the same date in the same world,
    return the same header or the same failure and leave the agent in the
    same state. *)
Lemma Sign_independent_of_algorithm (st1 st2 : State W) (p1 p2 : ptr)
    (s : SSHAgentSigner) (alg : string) (d : string) :
  world st1 = world st2 ->
  nth_error (heap st1) p1 = Some s ->
  nth_error (heap st2) p2 = Some (set_algorithm alg s) ->
  value (Sign p1 d st1) = value (Sign p2 d st2)
  /\ world (after (Sign p1 d st1)) = world (after (Sign p2 d st2)).
Proof.
  intros Hw H1 H2.
  destruct (agent s) as [c|] eqn:Hc.
  - rewrite (Sign_run st1 p1 s c d H1 Hc).
    rewrite (Sign_run st2 p2 (set_algorithm alg s) c d H2 Hc).
    cbv zeta. unfold after, value, emit.
    cbn [fst snd world key keyIdentifier set_algorithm]. now rewrite Hw.
  - rewrite !Sign_panics; [now split | right | right].
    + now exists (set_algorithm alg s).
    + now exists s.
Qed.

End SigningClaims.

Section MatchingClaims.

Context {W : Type} `{Host W}.

(** C3. When the agent returns its key list, [MatchKey] fails with the
    no-matching-key error exactly when no key of the whole list has the
    stripped fingerprint as the lowercase hexadecimal MD5 or as the
    unpadded base64 SHA-256 of its wire encoding; so it fails on the empty
    list, and on a non-empty list without a match. *)
Theorem MatchKey_not_found_iff (st : State W) (p : ptr)
    (s : SSHAgentSigner) (c : AgentClient) (keys : list Key) :
  nth_error (heap st) p = Some s ->
  agent s = Some c ->
  fst (host_List (client_conn c) (world st)) = Ok keys ->
  (value (MatchKey p st)
   = Returned (Err (KeyNotFoundError (keyFingerprint s)))
   <-> forall k, In k keys ->
         stripFingerprint (keyFingerprint s)
         <> Encoding.hex (MD5.Sum (Marshal k))
         /\ stripFingerprint (keyFingerprint s)
            <> Encoding.base64_raw (SHA256.Sum (Marshal k)))
  /\ (keys = [] ->
      value (MatchKey p st)
      = Returned (Err (KeyNotFoundError (keyFingerprint s)))).
Proof.
  intros Hs Hc Hl.
  rewrite (MatchKey_run st p s c Hs Hc). unfold value. cbn [fst].
  rewrite Hl.
  assert (Hnone : scanKeys (stripFingerprint (keyFingerprint s)) keys = None
                  <-> forall k, In k keys ->
                        stripFingerprint (keyFingerprint s)
                        <> Encoding.hex (MD5.Sum (Marshal k))
                        /\ stripFingerprint (keyFingerprint s)
                           <> Encoding.base64_raw (SHA256.Sum (Marshal k))).
  { rewrite scanKeys_none_iff. split; intros Hk k Hin.
    - specialize (Hk k Hin).
      split; intros E;
        (assert (Ht : key_matches (stripFingerprint (keyFingerprint s)) k
                      = true)
           by (apply key_matches_iff; simpl; auto));
        congruence.
    - destruct (Hk k Hin) as [H1 H2].
      destruct (key_matches _ k) eqn:E; [|reflexivity].
      apply key_matches_iff in E. simpl in E. tauto. }
  split.
  - rewrite <- Hnone.
    destruct (scanKeys _ keys); split; congruence.
  - intros ->. reflexivity.
Qed.

(** C5. When the agent's list is [l1], then [k], then [l2], key [k] passes
    the test of line 89 and no key of [l2] does, [MatchKey] returns [k],
    however many keys of [l1] pass the test as well: the last match in
    list order is the one returned. *)
Theorem MatchKey_returns_last_match (st : State W) (p : ptr)
    (s : SSHAgentSigner) (c : AgentClient) (l1 l2 : list Key) (k : Key) :
  nth_error (heap st) p = Some s ->
  agent s = Some c ->
  fst (host_List (client_conn c) (world st)) = Ok (l1 ++ k :: l2)%list ->
  key_matches (stripFingerprint (keyFingerprint s)) k = true ->
  (forall k', In k' l2 ->
     key_matches (stripFingerprint (keyFingerprint s)) k' = false) ->
  value (MatchKey p st) = Returned (Ok k).
Proof.
  intros Hs Hc Hl Hk Hl2.
  rewrite (MatchKey_run st p s c Hs Hc). unfold value. cbn [fst].
  rewrite Hl. now rewrite (scanKeys_last _ l1 l2 k Hk Hl2).
Qed.

Lemma selected_MatchKey (st : State W) (p : ptr) (s : SSHAgentSigner)
    (c : AgentClient) (keys : list Key) :
  nth_error (heap st) p = Some s ->
  agent s = Some c ->
  fst (host_List (client_conn c) (world st)) = Ok keys ->
  selected (MatchKey p st)
  = scanKeys (stripFingerprint (keyFingerprint s)) keys.
Proof.
  intros Hs Hc Hl. rewrite (MatchKey_run st p s c Hs Hc).
  unfold selected. cbn [fst]. rewrite Hl.
  destruct (scanKeys _ keys); reflexivity.
Qed.

(** C2, as amended.  Two signers on the same agent whose target
    fingerprints are two supported forms of the fingerprint of one key [k]
    select the same candidate, when the two forms are of the same digest
    or when every listed key has the MD5 text of [k] exactly if it has the
    SHA-256 text of [k]. *)
Theorem MatchKey_form_independent (st1 st2 : State W) (p1 p2 : ptr)
    (s1 s2 : SSHAgentSigner) (c : AgentClient) (keys : list Key)
    (k : Key) (f1 f2 : FingerprintForm) :
  nth_error (heap st1) p1 = Some s1 ->
  nth_error (heap st2) p2 = Some s2 ->
  agent s1 = Some c -> agent s2 = Some c ->
  world st1 = world st2 ->
  fst (host_List (client_conn c) (world st1)) = Ok keys ->
  keyFingerprint s1 = fingerprint_in f1 k ->
  keyFingerprint s2 = fingerprint_in f2 k ->
  (form_family f1 = form_family f2
   \/ forall k', In k' keys ->
        (digest_text MD5_hex k' = digest_text MD5_hex k
         <-> digest_text SHA256_base64 k' = digest_text SHA256_base64 k)) ->
  selected (MatchKey p1 st1) = selected (MatchKey p2 st2).
Proof.
  intros H1 H2 Hc1 Hc2 Hw Hl Hf1 Hf2 Hagree.
  rewrite (selected_MatchKey st1 p1 s1 c keys H1 Hc1 Hl).
  rewrite (selected_MatchKey st2 p2 s2 c keys H2 Hc2)
    by (now rewrite <- Hw).
  rewrite Hf1, Hf2, !stripFingerprint_form.
  destruct Hagree as [->|Hagree]; [reflexivity|].
  apply scanKeys_ext. intros k' Hin. specialize (Hagree k' Hin).
  apply eq_true_iff_eq. rewrite !key_matches_iff.
  assert (Hown : forall fam,
             (digest_text fam k = digest_text MD5_hex k'
              \/ digest_text fam k = digest_text SHA256_base64 k')
             <-> digest_text fam k' = digest_text fam k).
  { pose proof (digest_families_differ k k') as Hkk'.
    pose proof (digest_families_differ k' k) as Hk'k.
    intros [|]; split.
    - intros [E|E]; [now symmetry | contradiction].
    - intros E. left. now symmetry.
    - intros [E|E]; [symmetry in E; contradiction | now symmetry].
    - intros E. right. now symmetry. }
  rewrite !Hown.
  destruct (form_family f1), (form_family f2); tauto.
Qed.

End MatchingClaims.

(** ** The claims at concrete inputs *)

Section Examples.

Import Double Scenario.

(** C10. The header that [Sign] returns does not depend on the stored
    default algorithm: two signers that differ at most in that field
    return the same result in the same world.  The label in the header is
    the one of the signature at hand, so it can differ from what
    [DefaultAlgorithm] returns: a signer constructed on an agent that
    answered the probe with an RSA signature and answers the next request
    with an ECDSA one has default "rsa-sha256" and returns a header with
    algorithm "ecdsa-sha256". *)
Theorem Sign_ignores_default_algorithm :
  (forall (W : Type) (HW : Host W) (P : Package) (st1 st2 : State W)
          (p1 p2 : ptr) (s : SSHAgentSigner) (alg d : string),
      world st1 = world st2 ->
      nth_error (heap st1) p1 = Some s ->
      nth_error (heap st2) p2 = Some (set_algorithm alg s) ->
      value (Sign p1 d st1) = value (Sign p2 d st2)
      /\ world (after (Sign p1 d st1)) = world (after (Sign p2 d st2)))
  /\ (NewSSHAgentSigner fingerprint "acct" (boot [ecdsa_reply])
      = (Returned (Ok 0), ready [ecdsa_reply])
      /\ value (DefaultAlgorithm 0 (ready [ecdsa_reply]))
         = Returned "rsa-sha256"
      /\ value (Sign 0 date (ready [ecdsa_reply]))
         = Returned
             (Ok (header_value
                    ("/acct/keys/" ++ formatPublicKeyFingerprint rsa_key true)
                    "ecdsa-sha256"
                    (Encoding.base64_raw (Bytes.of_string "ecdsa signature"))))).
Proof.
  split.
  - intros W HW P st1 st2 p1 p2 s alg d.
    apply Sign_independent_of_algorithm.
  - vm_compute. repeat split; reflexivity.
Qed.

Lemma Sign_ignores_default_algorithm_witness :
  nth_error (heap (ready [ecdsa_reply])) 0
  = Some (initialized fingerprint "acct" 3 rsa_key "rsa-sha256")
  /\ value (Sign 0 date (ready [ecdsa_reply]))
     = value
         (Sign 0 date
            {| world := world (ready [ecdsa_reply]);
               trace := [];
               heap := [set_algorithm "ecdsa-sha512"
                          (initialized fingerprint "acct" 3 rsa_key
                             "rsa-sha256")] |}).
Proof.
  assert (Hs : nth_error (heap (ready [ecdsa_reply])) 0
               = Some (initialized fingerprint "acct" 3 rsa_key "rsa-sha256"))
    by (vm_compute; reflexivity).
  split; [exact Hs|].
  refine (proj1 (proj1 Sign_ignores_default_algorithm Script host package
                   (ready [ecdsa_reply])
                   {| world := world (ready [ecdsa_reply]);
                      trace := [];
                      heap := [set_algorithm "ecdsa-sha512"
                                 (initialized fingerprint "acct" 3 rsa_key
                                    "rsa-sha256")] |}
                   0 0 (initialized fingerprint "acct" 3 rsa_key "rsa-sha256")
                   "ecdsa-sha512" date _ Hs _));
    vm_compute; reflexivity.
Defined.

Lemma Sign_header_witness :
  NewSSHAgentSigner fingerprint "acct" (boot [ecdsa_reply])
  = (Returned (Ok 0), ready [ecdsa_reply])
  /\ trace (after (Sign 0 date (ready [ecdsa_reply])))
     = (trace (ready [ecdsa_reply])
        ++ [EvSign 3 (Some rsa_key) (Bytes.of_string ("date: " ++ date))])%list
  /\ value (Sign 0 date (ready [ecdsa_reply]))
     = Returned
         (Ok (header_value
                ("/acct/keys/" ++ formatPublicKeyFingerprint rsa_key true)
                "ecdsa-sha256"
                (Encoding.base64_raw (Bytes.of_string "ecdsa signature")))).
Proof.
  assert (Hnew : NewSSHAgentSigner fingerprint "acct" (boot [ecdsa_reply])
                 = (Returned (Ok 0), ready [ecdsa_reply]))
    by (vm_compute; reflexivity).
  split; [exact Hnew|].
  destruct (Sign_header _ _ _ _ _ Hnew) as (s & c & k & Hs & Hc & Hk & Hsign).
  assert (Es : s = initialized fingerprint "acct" 3 rsa_key "rsa-sha256").
  { vm_compute in Hs. inversion Hs. vm_compute. reflexivity. }
  subst s. inversion Hc; subst c. inversion Hk; subst k.
  destruct (Hsign date (ready [ecdsa_reply]) Hs) as (Hafter & Hok & _).
  split.
  - rewrite Hafter. vm_compute. reflexivity.
  - rewrite (Hok {| Format := "ecdsa-sha2-nistp256";
                    Blob := Bytes.of_string "ecdsa signature" |}
               (Encoding.base64_raw (Bytes.of_string "ecdsa signature"))
               "ecdsa-sha256");
      [vm_compute; reflexivity | vm_compute; reflexivity
       | vm_compute; reflexivity].
Defined.

(** C2 as stated fails.  An agent lists two keys whose blobs have the same
    MD5 digest and different SHA-256 digests.  The MD5 fingerprint of the
    first key and its SHA-256 fingerprint are two supported forms of the
    fingerprint of that key; with the first [MatchKey] selects the second
    key, the last of the two that match, and with the other it selects the
    first key. *)
Lemma MatchKey_form_independence_fails :
  ~ (forall (W : Type) (HW : Host W) (st1 st2 : State W) (p1 p2 : ptr)
            (s1 s2 : SSHAgentSigner) (c : AgentClient) (keys : list Key)
            (k : Key) (f1 f2 : FingerprintForm),
        nth_error (heap st1) p1 = Some s1 ->
        nth_error (heap st2) p2 = Some s2 ->
        agent s1 = Some c -> agent s2 = Some c ->
        world st1 = world st2 ->
        fst (host_List (client_conn c) (world st1)) = Ok keys ->
        keyFingerprint s1 = fingerprint_in f1 k ->
        keyFingerprint s2 = fingerprint_in f2 k ->
        selected (MatchKey p1 st1) = selected (MatchKey p2 st2)).
Proof.
  intros Hclaim.
  specialize
    (Hclaim Script host
       (holding (fingerprint_in md5_bare key_a) [key_a; key_b])
       (holding (fingerprint_in sha256_prefixed key_a) [key_a; key_b])
       0 0
       (signer_with (fingerprint_in md5_bare key_a))
       (signer_with (fingerprint_in sha256_prefixed key_a))
       (agent_NewClient 3) [key_a; key_b] key_a md5_bare sha256_prefixed).
  assert (E : selected
                (MatchKey 0
                   (holding (fingerprint_in md5_bare key_a) [key_a; key_b]))
              = selected
                  (MatchKey 0
                     (holding (fingerprint_in sha256_prefixed key_a)
                        [key_a; key_b])))
    by (apply Hclaim; vm_compute; reflexivity).
  vm_compute in E. discriminate E.
Qed.

Example collision_selections :
  selected (MatchKey 0 (holding "008ee33a9d58b51cfeb425b0959121c9"
                          [key_a; key_b]))
  = Some key_b
  /\ selected
       (MatchKey 0
          (holding "SHA256:VLy5pP2jHk8lQwPjlZrNXkIK0YqAlJ1WowAMNxb70aA"
             [key_a; key_b]))
     = Some key_a.
Proof. vm_compute. split; reflexivity. Qed.

Lemma MatchKey_form_independent_witness :
  (forall k', In k' [other_key; rsa_key; rsa_key_again] ->
     (digest_text MD5_hex k' = digest_text MD5_hex rsa_key
      <-> digest_text SHA256_base64 k' = digest_text SHA256_base64 rsa_key))
  /\ selected
       (MatchKey 0
          (holding (fingerprint_in md5_colons rsa_key)
             [other_key; rsa_key; rsa_key_again]))
     = selected
         (MatchKey 0
            (holding (fingerprint_in sha256_prefixed rsa_key)
               [other_key; rsa_key; rsa_key_again])).
Proof.
  assert (Hagree :
            forall k', In k' [other_key; rsa_key; rsa_key_again] ->
              (digest_text MD5_hex k' = digest_text MD5_hex rsa_key
               <-> digest_text SHA256_base64 k'
                   = digest_text SHA256_base64 rsa_key)).
  { intros k' [<-|[<-|[<-|[]]]]; split; intros E;
      vm_compute in E; try discriminate E; vm_compute; reflexivity. }
  split; [exact Hagree|].
  refine (MatchKey_form_independent
            (holding (fingerprint_in md5_colons rsa_key)
               [other_key; rsa_key; rsa_key_again])
            (holding (fingerprint_in sha256_prefixed rsa_key)
               [other_key; rsa_key; rsa_key_again])
            0 0
            (signer_with (fingerprint_in md5_colons rsa_key))
            (signer_with (fingerprint_in sha256_prefixed rsa_key))
            (agent_NewClient 3) [other_key; rsa_key; rsa_key_again]
            rsa_key md5_colons sha256_prefixed
            _ _ _ _ _ _ _ _ (or_intror Hagree));
    vm_compute; reflexivity.
Defined.

Lemma MatchKey_not_found_iff_witness :
  nth_error (heap (holding fingerprint [other_key])) 0
  = Some (signer_with fingerprint)
  /\ agent (signer_with fingerprint) = Some (agent_NewClient 3)
  /\ fst (host_List (client_conn (agent_NewClient 3))
            (world (holding fingerprint [other_key])))
     = Ok [other_key]
  /\ value (MatchKey 0 (holding fingerprint [other_key]))
     = Returned
         (Err (KeyNotFoundError (keyFingerprint (signer_with fingerprint)))).
Proof.
  assert (H1 : nth_error (heap (holding fingerprint [other_key])) 0
               = Some (signer_with fingerprint))
    by (vm_compute; reflexivity).
  assert (H2 : agent (signer_with fingerprint) = Some (agent_NewClient 3))
    by (vm_compute; reflexivity).
  assert (H3 : fst (host_List (client_conn (agent_NewClient 3))
                      (world (holding fingerprint [other_key])))
               = Ok [other_key])
    by (vm_compute; reflexivity).
  split; [exact H1|]. split; [exact H2|]. split; [exact H3|].
  apply (proj1 (MatchKey_not_found_iff
                  (holding fingerprint [other_key]) 0
                  (signer_with fingerprint) (agent_NewClient 3) [other_key]
                  H1 H2 H3)).
  intros k [<-|[]]; split; intros E; vm_compute in E; discriminate E.
Defined.

Lemma MatchKey_returns_last_match_witness :
  key_matches
    (stripFingerprint
       (keyFingerprint (signer_with (fingerprint_in md5_colons rsa_key))))
    rsa_key = true
  /\ key_matches
       (stripFingerprint
          (keyFingerprint (signer_with (fingerprint_in md5_colons rsa_key))))
       rsa_key_again = true
  /\ value
       (MatchKey 0
          (holding (fingerprint_in md5_colons rsa_key)
             [rsa_key; rsa_key_again; other_key]))
     = Returned (Ok rsa_key_again).
Proof.
  split; [vm_compute; reflexivity|].
  assert (Hk : key_matches
                 (stripFingerprint
                    (keyFingerprint
                       (signer_with (fingerprint_in md5_colons rsa_key))))
                 rsa_key_again = true) by (vm_compute; reflexivity).
  split; [exact Hk|].
  refine (MatchKey_returns_last_match
            (holding (fingerprint_in md5_colons rsa_key)
               [rsa_key; rsa_key_again; other_key])
            0 (signer_with (fingerprint_in md5_colons rsa_key))
            (agent_NewClient 3) [rsa_key] [other_key] rsa_key_again
            _ _ _ Hk _);
    [vm_compute; reflexivity | vm_compute; reflexivity
     | vm_compute; reflexivity | ].
  intros k' [<-|[]]. vm_compute. reflexivity.
Defined.

Lemma NewSSHAgentSigner_unset_env_witness :
  host_LookupEnv "SSH_AUTH_SOCK" (world unset) = None
  /\ NewSSHAgentSigner "any fingerprint" "acct" unset
     = (Returned (Err ConfigError),
        {| world := world unset;
           trace := trace unset ++ [EvLookupEnv "SSH_AUTH_SOCK"];
           heap := heap unset |}).
Proof.
  assert (Henv : host_LookupEnv "SSH_AUTH_SOCK" (world unset) = None)
    by (vm_compute; reflexivity).
  split; [exact Henv|].
  exact (proj1 (NewSSHAgentSigner_unset_env "any fingerprint" "acct" unset
                  Henv)).
Defined.

Lemma unsupported_family_rejected_witness :
  nth_error (heap (ready [ed25519_reply])) 0
  = Some (initialized fingerprint "acct" 3 rsa_key "rsa-sha256")
  /\ keyFormatToKeyType (Format ed25519_signature) = Ok "ed25519"
  /\ "ed25519" <> "rsa" /\ "ed25519" <> "ecdsa"
  /\ value (Sign 0 date (ready [ed25519_reply]))
     = Returned
         (Err (UnsupportedAlgorithmError (Format ed25519_signature)))
  /\ value (SignRaw 0 "payload" (ready [ed25519_reply]))
     = Returned
         (Err (UnsupportedAlgorithmError (Format ed25519_signature))).
Proof.
  assert (Hs : nth_error (heap (ready [ed25519_reply])) 0
               = Some (initialized fingerprint "acct" 3 rsa_key "rsa-sha256"))
    by (vm_compute; reflexivity).
  assert (Hf : keyFormatToKeyType (Format ed25519_signature) = Ok "ed25519")
    by (vm_compute; reflexivity).
  assert (Hr : "ed25519" <> "rsa") by discriminate.
  assert (He : "ed25519" <> "ecdsa") by discriminate.
  destruct (unsupported_family_rejected (ready [ed25519_reply]) 0
              (initialized fingerprint "acct" 3 rsa_key "rsa-sha256")
              (agent_NewClient 3) ed25519_signature "ed25519"
              Hs eq_refl Hf Hr He) as (Hsign & Hraw & _).
  repeat (split; [assumption|]). split.
  - apply Hsign. vm_compute. reflexivity.
  - apply Hraw. vm_compute. reflexivity.
Defined.

Lemma NewSSHAgentSigner_atomic_witness :
  value
    (SignRaw (List.length (heap refusing)) "HelloWorld"
       {| world := world refusing;
          trace := trace refusing
                   ++ [EvLookupEnv "SSH_AUTH_SOCK";
                       EvDial "unix" "/tmp/agent.sock"; EvList 3];
          heap := heap refusing
                  ++ [initialized fingerprint "acct" 3 rsa_key ""] |})
  = Returned (Err (errwrap_Wrapf "Error signing string: {{err}}" refused))
  /\ value (NewSSHAgentSigner fingerprint "acct" refusing)
     = Returned
         (Err (CannotSignError
                 (errwrap_Wrapf "Error signing string: {{err}}" refused)))
  /\ value
       (DefaultAlgorithm (List.length (heap (boot [ecdsa_reply])))
          (after (NewSSHAgentSigner fingerprint "acct" (boot [ecdsa_reply]))))
     = Returned "rsa-sha256".
Proof.
  assert (Hprobe :
            value
              (SignRaw (List.length (heap refusing)) "HelloWorld"
                 {| world := world refusing;
                    trace := trace refusing
                             ++ [EvLookupEnv "SSH_AUTH_SOCK";
                                 EvDial "unix" "/tmp/agent.sock"; EvList 3];
                    heap := heap refusing
                            ++ [initialized fingerprint "acct" 3 rsa_key ""] |})
            = Returned
                (Err (errwrap_Wrapf "Error signing string: {{err}}" refused)))
    by (vm_compute; reflexivity).
  split; [exact Hprobe|]. split.
  - refine (proj2 (NewSSHAgentSigner_atomic fingerprint "acct" refusing)
              "/tmp/agent.sock" 3 (world refusing) [rsa_key] (world refusing)
              rsa_key _ _ _ _ _ Hprobe);
      vm_compute; reflexivity.
  - destruct (proj1 (NewSSHAgentSigner_atomic fingerprint "acct"
                       (boot [ecdsa_reply])))
      as [(address & conn & w1 & keys & w2 & k & text & alg
           & Henv & Hdial & Hlist & Hscan & Hp & _ & _ & Hda & _)
         | (e & Hv & _)].
    + vm_compute in Henv. inversion Henv. subst address.
      vm_compute in Hdial. inversion Hdial. subst conn w1.
      vm_compute in Hlist. inversion Hlist. subst keys w2.
      vm_compute in Hscan. inversion Hscan. subst k.
      vm_compute in Hp. inversion Hp. subst text alg.
      exact Hda.
    + vm_compute in Hv. discriminate Hv.
Defined.

Lemma Sign_SignRaw_same_pipeline_witness :
  value (SignRaw 0 ("date: " ++ date) (ready [ecdsa_reply]))
  = Returned
      (Ok (Encoding.base64_raw (Bytes.of_string "ecdsa signature"),
           "ecdsa-sha256"))
  /\ exists s,
       nth_error (heap (ready [ecdsa_reply])) 0 = Some s
       /\ value (Sign 0 date (ready [ecdsa_reply]))
          = Returned
              (Ok (header_value (keyIdentifier s) "ecdsa-sha256"
                     (Encoding.base64_raw
                        (Bytes.of_string "ecdsa signature")))).
Proof.
  assert (Hraw : value (SignRaw 0 ("date: " ++ date) (ready [ecdsa_reply]))
                 = Returned
                     (Ok (Encoding.base64_raw
                            (Bytes.of_string "ecdsa signature"),
                          "ecdsa-sha256")))
    by (vm_compute; reflexivity).
  split; [exact Hraw|].
  exact (proj1 (proj2 (Sign_SignRaw_same_pipeline 0 date
                         (ready [ecdsa_reply]))) _ _ Hraw).
Defined.

Lemma constructed_signer_is_immutable_witness :
  NewSSHAgentSigner fingerprint "acct" (boot [ecdsa_reply])
  = (Returned (Ok 0), ready [ecdsa_reply])
  /\ exists s,
       nth_error (heap (ready [ecdsa_reply])) 0 = Some s
       /\ key s <> None /\ agent s <> None
       /\ heap (after (Sign 0 date (ready [ecdsa_reply])))
          = heap (ready [ecdsa_reply])
       /\ heap (after (SignRaw 0 "payload" (ready [ecdsa_reply])))
          = heap (ready [ecdsa_reply])
       /\ KeyFingerprint 0 (ready [ecdsa_reply])
          = (Returned (formattedKeyFingerprint s), ready [ecdsa_reply])
       /\ DefaultAlgorithm 0 (ready [ecdsa_reply])
          = (Returned (algorithm s), ready [ecdsa_reply]).
Proof.
  assert (Hnew : NewSSHAgentSigner fingerprint "acct" (boot [ecdsa_reply])
                 = (Returned (Ok 0), ready [ecdsa_reply]))
    by (vm_compute; reflexivity).
  split; [exact Hnew|].
  destruct (constructed_signer_is_immutable _ _ _ _ _ Hnew)
    as (s & Hs & Hk & Ha & _ & _ & Hops).
  exists s. destruct (Hops (ready [ecdsa_reply]) Hs) as (H1 & H2 & H3 & H4).
  repeat (split; [assumption|]).
  split; [exact (proj1 (H1 date))|].
  split; [exact (proj1 (H2 "payload"))|].
  split; assumption.
Defined.

End Examples.

(** * Further properties of the signer *)

(** ** Messages of wrapped errors *)

Lemma Wrapf_dial_message (cause : error) :
  Error (errwrap_Wrapf "Error dialing SSH agent: {{err}}" cause)
  = "Error dialing SSH agent: " ++ Error cause.
Proof.
  unfold errwrap_Wrapf, strings_ReplaceAll. cbn. now rewrite append_empty_r.
Qed.

Lemma Wrapf_sign_header_message (cause : error) :
  Error (errwrap_Wrapf "Error signing date header: {{err}}" cause)
  = "Error signing date header: " ++ Error cause.
Proof.
  unfold errwrap_Wrapf, strings_ReplaceAll. cbn. now rewrite append_empty_r.
Qed.

Lemma Wrapf_sign_string_message (cause : error) :
  Error (errwrap_Wrapf "Error signing string: {{err}}" cause)
  = "Error signing string: " ++ Error cause.
Proof.
  unfold errwrap_Wrapf, strings_ReplaceAll. cbn. now rewrite append_empty_r.
Qed.

Lemma Wrapf_reading_message (cause : error) :
  Error (errwrap_Wrapf "Error reading signature: {{err}}" cause)
  = "Error reading signature: " ++ Error cause.
Proof.
  unfold errwrap_Wrapf, strings_ReplaceAll. cbn. now rewrite append_empty_r.
Qed.

Lemma scanKeys_some (t : string) (keys : list Key) (k : Key) :
  scanKeys t keys = Some k -> In k keys /\ key_matches t k = true.
Proof.
  induction keys as [|a keys IH]; [discriminate|].
  rewrite scanKeys_cons.
  destruct (scanKeys t keys) as [k'|].
  - intros E. inversion E; subst k'. destruct (IH eq_refl). split; [now right | assumption].
  - destruct (key_matches t a) eqn:Ha; [|discriminate].
    intros E. inversion E; subst a. split; [now left | assumption].
Qed.

Section Extras.

Context {W : Type} `{Host W} `{Package}.

(** X1. When the environment names an address and dialling it fails,
    construction returns the dial error wrapped: its message is "Error
    dialing SSH agent: " followed by the cause's message and the cause is
    kept.  Only the lookup and the dial of network "unix" have left the
    package, and no signer object was allocated. *)
Theorem NewSSHAgentSigner_dial_failure (fp account : string) (st : State W)
    (address : string) (cause : error) (w1 : W) :
  host_LookupEnv "SSH_AUTH_SOCK" (world st) = Some address ->
  host_Dial "unix" address (world st) = (Err cause, w1) ->
  exists outer,
    NewSSHAgentSigner fp account st
    = (Returned (Err (wrappedError outer cause)),
       {| world := w1;
          trace := trace st ++ [EvLookupEnv "SSH_AUTH_SOCK";
                                EvDial "unix" address];
          heap := heap st |})
    /\ Error (wrappedError outer cause)
       = "Error dialing SSH agent: " ++ Error cause.
Proof.
  intros Henv Hdial.
  exists (errors_New
            (strings_ReplaceAll "Error dialing SSH agent: {{err}}" "{{err}}"
               (Error cause))).
  split.
  - rewrite NewSSHAgentSigner_run. cbv zeta. rewrite Henv, Hdial.
    cbn [fst snd]. unfold emit. cbn [world trace heap].
    now rewrite <- app_assoc.
  - apply Wrapf_dial_message.
Qed.

(** X2. When the agent is reached and none of the keys it lists passes the
    test of line 89, construction fails with "No key in the SSH Agent
    matches fingerprint: " followed by the fingerprint as the caller wrote
    it, prefix and colons included.  The agent was asked for its list and
    for nothing else: no probe signature is requested. *)
Theorem NewSSHAgentSigner_no_matching_key (fp account : string)
    (st : State W) (address : string) (conn : Conn) (w1 w2 : W)
    (keys : list Key) :
  host_LookupEnv "SSH_AUTH_SOCK" (world st) = Some address ->
  host_Dial "unix" address (world st) = (Ok conn, w1) ->
  host_List conn w1 = (Ok keys, w2) ->
  (forall k, In k keys -> key_matches (stripFingerprint fp) k = false) ->
  value (NewSSHAgentSigner fp account st)
  = Returned
      (Err (errorString
              ("No key in the SSH Agent matches fingerprint: " ++ fp)))
  /\ world (after (NewSSHAgentSigner fp account st)) = w2
  /\ trace (after (NewSSHAgentSigner fp account st))
     = (trace st ++ [EvLookupEnv "SSH_AUTH_SOCK"; EvDial "unix" address;
                     EvList conn])%list.
Proof.
  intros Henv Hdial Hlist Hnone.
  rewrite NewSSHAgentSigner_run. cbv zeta. rewrite Henv, Hdial.
  cbn [fst snd]. rewrite Hlist. cbn [fst snd].
  apply scanKeys_none_iff in Hnone. rewrite Hnone.
  unfold value, after, emit. cbn [fst snd world trace].
  repeat split. now rewrite <- !app_assoc.
Qed.

(** X3. When the agent fails to list its keys, [MatchKey] returns an error
    that keeps the cause but whose message is the fixed text "Error listing
    keys in SSH Agent: %s": the format of line 72 has no [{{err}}] marker,
    so the cause's message does not appear in it. *)
Theorem MatchKey_list_failure (st : State W) (p : ptr) (s : SSHAgentSigner)
    (c : AgentClient) (cause : error) :
  nth_error (heap st) p = Some s ->
  agent s = Some c ->
  fst (host_List (client_conn c) (world st)) = Err cause ->
  exists outer,
    value (MatchKey p st) = Returned (Err (wrappedError outer cause))
    /\ Error (wrappedError outer cause)
       = "Error listing keys in SSH Agent: %s".
Proof.
  intros Hs Hc Hl. rewrite (MatchKey_run st p s c Hs Hc).
  unfold value. cbn [fst]. rewrite Hl.
  eexists. split; reflexivity.
Qed.

(** X4. A key that [MatchKey] returns is one of the keys the agent listed,
    and the stripped target is the hexadecimal MD5 or the raw base64
    SHA-256 of its wire encoding.  The call asks the agent for its list
    once, asks nothing else, and writes no signer. *)
Theorem MatchKey_sound (st : State W) (p : ptr) (s : SSHAgentSigner)
    (c : AgentClient) (k : Key) :
  nth_error (heap st) p = Some s ->
  agent s = Some c ->
  value (MatchKey p st) = Returned (Ok k) ->
  (exists keys,
      fst (host_List (client_conn c) (world st)) = Ok keys /\ In k keys)
  /\ (stripFingerprint (keyFingerprint s)
      = Encoding.hex (MD5.Sum (Marshal k))
      \/ stripFingerprint (keyFingerprint s)
         = Encoding.base64_raw (SHA256.Sum (Marshal k)))
  /\ trace (after (MatchKey p st))
     = (trace st ++ [EvList (client_conn c)])%list
  /\ heap (after (MatchKey p st)) = heap st.
Proof.
  intros Hs Hc. rewrite (MatchKey_run st p s c Hs Hc).
  unfold value, after, emit. cbn [fst snd trace heap].
  destruct (fst (host_List (client_conn c) (world st))) as [keys|err];
    [|discriminate].
  destruct (scanKeys _ keys) as [k'|] eqn:Hscan; [|discriminate].
  intros E. inversion E; subst k'.
  destruct (scanKeys_some _ _ _ Hscan) as [Hin Hm].
  apply key_matches_iff in Hm.
  repeat split; [now exists keys | exact Hm].
Qed.

Lemma scanKeys_finds (t : string) (keys : list Key) (k : Key) :
  In k keys -> key_matches t k = true ->
  exists k', scanKeys t keys = Some k' /\ In k' keys
             /\ key_matches t k' = true.
Proof.
  intros Hin Hm. destruct (scanKeys t keys) as [k'|] eqn:E.
  - exists k'. destruct (scanKeys_some _ _ _ E). auto.
  - rewrite scanKeys_none_iff in E. rewrite (E k Hin) in Hm. discriminate.
Qed.

Lemma hex_digit_in_alphabet (n : N) :
  existsb (Ascii.eqb (Encoding.hex_digit n)) Encoding.hex_alphabet = true.
Proof.
  unfold Encoding.hex_digit. generalize (N.to_nat n). intros m.
  do 16 (destruct m as [|m]; [reflexivity|]). destruct m; reflexivity.
Qed.

Lemma b64_digit_in_alphabet (n : N) :
  existsb (Ascii.eqb (Encoding.b64_digit n)) Encoding.b64_alphabet = true.
Proof.
  unfold Encoding.b64_digit. generalize (N.to_nat n). intros m.
  do 64 (destruct m as [|m]; [reflexivity|]). destruct m; reflexivity.
Qed.

Lemma hex_all_hex (bs : list byte) : all_hex (Encoding.hex bs) = true.
Proof.
  unfold all_hex. induction bs as [|b bs IH]; [reflexivity|].
  cbn -[existsb Encoding.hex_digit Encoding.hex_alphabet N.div N.modulo].
  now rewrite !hex_digit_in_alphabet, IH.
Qed.

Lemma base64_all_base64 (bs : list byte) :
  all_base64 (Encoding.base64_raw bs) = true.
Proof.
  unfold all_base64.
  induction bs as [|a|a b|a b c r IH] using list3_ind;
    cbn -[existsb Encoding.b64_digit Encoding.b64_alphabet
          N.div N.modulo N.mul N.add];
    rewrite ?b64_digit_in_alphabet; auto.
Qed.

(** The two texts of line 89: 32 lowercase hexadecimal digits, or 43
    characters of the base64 alphabet. *)
Lemma key_matches_shape (t : string) (k : Key) :
  key_matches t k = true ->
  (String.length t = 32 /\ all_hex t = true)
  \/ (String.length t = 43 /\ all_base64 t = true).
Proof.
  intros Hm. apply key_matches_iff in Hm. destruct Hm as [-> | ->].
  - left. split; [apply (digest_text_length MD5_hex) | apply hex_all_hex].
  - right. split; [apply (digest_text_length SHA256_base64)
                  | apply base64_all_base64].
Qed.

Lemma drop_colons_no_colon (s : string) : no_colon (drop_colons s) = true.
Proof.
  induction s as [|c s IH]; [reflexivity|].
  cbn -[Ascii.eqb]. destruct (Ascii.eqb c ":") eqn:E; [assumption|].
  cbn -[Ascii.eqb]. now rewrite E, IH.
Qed.

Lemma stripFingerprint_no_colon_id (t : string) :
  no_colon t = true -> stripFingerprint t = t.
Proof.
  intros Ht. unfold stripFingerprint.
  rewrite (TrimPrefix_no_colon "MD5:"); [|reflexivity|assumption].
  rewrite TrimPrefix_no_colon; [|reflexivity|assumption].
  rewrite ReplaceAll_colons. now apply drop_colons_id.
Qed.

(** X5. A listed key is always found from its own fingerprint: with the
    target written in any supported form of the fingerprint of a key the
    agent lists, [MatchKey] succeeds, and the key it returns has the same
    digest text as that key in the form's digest. *)
Theorem MatchKey_finds_listed_key (st : State W) (p : ptr)
    (s : SSHAgentSigner) (c : AgentClient) (keys : list Key) (k : Key)
    (f : FingerprintForm) :
  nth_error (heap st) p = Some s ->
  agent s = Some c ->
  fst (host_List (client_conn c) (world st)) = Ok keys ->
  In k keys ->
  keyFingerprint s = fingerprint_in f k ->
  exists k',
    value (MatchKey p st) = Returned (Ok k')
    /\ In k' keys
    /\ digest_text (form_family f) k' = digest_text (form_family f) k.
Proof.
  intros Hs Hc Hl Hin Hf.
  rewrite (MatchKey_run st p s c Hs Hc). unfold value. cbn [fst].
  rewrite Hl, Hf, stripFingerprint_form.
  assert (Hk : key_matches (digest_text (form_family f) k) k = true).
  { apply key_matches_iff. destruct (form_family f); auto. }
  destruct (scanKeys_finds _ _ _ Hin Hk) as (k' & -> & Hin' & Hm).
  exists k'. repeat split; [assumption|].
  apply key_matches_iff in Hm.
  destruct (form_family f), Hm as [E|E]; try (now symmetry).
  - now apply digest_families_differ in E.
  - symmetry in E. now apply digest_families_differ in E.
Qed.

(** X6. When exactly one listed key passes the test, [MatchKey] returns it
    wherever it stands in the list. *)
Theorem MatchKey_unique_match (st : State W) (p : ptr) (s : SSHAgentSigner)
    (c : AgentClient) (keys : list Key) (k : Key) :
  nth_error (heap st) p = Some s ->
  agent s = Some c ->
  fst (host_List (client_conn c) (world st)) = Ok keys ->
  In k keys ->
  key_matches (stripFingerprint (keyFingerprint s)) k = true ->
  (forall k', In k' keys ->
     key_matches (stripFingerprint (keyFingerprint s)) k' = true -> k' = k) ->
  value (MatchKey p st) = Returned (Ok k).
Proof.
  intros Hs Hc Hl Hin Hm Huniq.
  rewrite (MatchKey_run st p s c Hs Hc). unfold value. cbn [fst].
  rewrite Hl.
  destruct (scanKeys_finds _ _ _ Hin Hm) as (k' & -> & Hin' & Hm').
  now rewrite (Huniq k' Hin' Hm').
Qed.

(** X7. [MatchKey] can only succeed when the stripped target is 32
    lowercase hexadecimal digits or 43 characters of the base64 alphabet:
    upper-case hexadecimal, padded base64, a lower-case prefix or a digest
    of another length never find a key. *)
Theorem MatchKey_target_shape (st : State W) (p : ptr) (s : SSHAgentSigner)
    (c : AgentClient) (k : Key) :
  nth_error (heap st) p = Some s ->
  agent s = Some c ->
  value (MatchKey p st) = Returned (Ok k) ->
  (String.length (stripFingerprint (keyFingerprint s)) = 32
   /\ all_hex (stripFingerprint (keyFingerprint s)) = true)
  \/ (String.length (stripFingerprint (keyFingerprint s)) = 43
      /\ all_base64 (stripFingerprint (keyFingerprint s)) = true).
Proof.
  intros Hs Hc. rewrite (MatchKey_run st p s c Hs Hc).
  unfold value. cbn [fst].
  destruct (fst (host_List (client_conn c) (world st))) as [keys|err];
    [|discriminate].
  destruct (scanKeys _ keys) as [k'|] eqn:Hscan; [|discriminate].
  intros _. destruct (scanKeys_some _ _ _ Hscan) as [_ Hm].
  now apply key_matches_shape in Hm.
Qed.

(** X8. The stripped target never contains a colon, whatever the input,
    and stripping is idempotent. *)
Theorem stripFingerprint_idempotent (fp : string) :
  no_colon (stripFingerprint fp) = true
  /\ stripFingerprint (stripFingerprint fp) = stripFingerprint fp.
Proof.
  assert (Hn : no_colon (stripFingerprint fp) = true).
  { unfold stripFingerprint. rewrite ReplaceAll_colons.
    apply drop_colons_no_colon. }
  split; [exact Hn | now apply stripFingerprint_no_colon_id].
Qed.

(** X9. The two prefixes are removed in a fixed order, "MD5:" first and
    "SHA256:" second, each once.  So a target that carries both, "MD5:"
    then "SHA256:", before the digest text of a listed key finds that key,
    and one that carries them the other way round finds none: "MD5"
    stays in front of the digest. *)
Theorem MatchKey_double_prefix (st : State W) (p : ptr) (s : SSHAgentSigner)
    (c : AgentClient) (keys : list Key) (k : Key) (fam : digest_family) :
  nth_error (heap st) p = Some s ->
  agent s = Some c ->
  fst (host_List (client_conn c) (world st)) = Ok keys ->
  In k keys ->
  (keyFingerprint s = "MD5:SHA256:" ++ digest_text fam k ->
   exists k', value (MatchKey p st) = Returned (Ok k')
              /\ digest_text fam k' = digest_text fam k)
  /\ (keyFingerprint s = "SHA256:MD5:" ++ digest_text fam k ->
      stripFingerprint (keyFingerprint s) = "MD5" ++ digest_text fam k
      /\ value (MatchKey p st)
         = Returned (Err (KeyNotFoundError (keyFingerprint s)))).
Proof.
  intros Hs Hc Hl Hin.
  pose proof (digest_text_no_colon fam k) as Hd.
  rewrite (MatchKey_run st p s c Hs Hc). unfold value. cbn [fst].
  rewrite Hl. split; intros Hf.
  - assert (Et : stripFingerprint (keyFingerprint s) = digest_text fam k).
    { rewrite Hf. unfold stripFingerprint.
      change ("MD5:SHA256:" ++ digest_text fam k)
        with ("MD5:" ++ ("SHA256:" ++ digest_text fam k)).
      rewrite !TrimPrefix_app, ReplaceAll_colons.
      now apply drop_colons_id. }
    rewrite Et.
    assert (Hk : key_matches (digest_text fam k) k = true).
    { apply key_matches_iff. destruct fam; auto. }
    destruct (scanKeys_finds _ _ _ Hin Hk) as (k' & -> & Hin' & Hm).
    exists k'. split; [reflexivity|].
    apply key_matches_iff in Hm.
    destruct fam, Hm as [E|E]; try (now symmetry).
    + now apply digest_families_differ in E.
    + symmetry in E. now apply digest_families_differ in E.
  - assert (Et : stripFingerprint (keyFingerprint s)
                 = "MD5" ++ digest_text fam k).
    { rewrite Hf. unfold stripFingerprint.
      replace (strings_TrimPrefix ("SHA256:MD5:" ++ digest_text fam k) "MD5:")
        with ("SHA256:" ++ ("MD5:" ++ digest_text fam k)) by reflexivity.
      rewrite TrimPrefix_app, ReplaceAll_colons.
      cbn -[Ascii.eqb digest_text]. now rewrite drop_colons_id. }
    split; [exact Et|]. rewrite Et.
    destruct (scanKeys _ keys) as [k'|] eqn:Hscan; [|reflexivity].
    destruct (scanKeys_some _ _ _ Hscan) as [_ Hm].
    apply key_matches_shape in Hm.
    cbn [String.length append] in Hm.
    rewrite digest_text_length in Hm.
    destruct fam, Hm as [[E _]|[E _]]; discriminate.
Qed.

(** X10. A successful construction has made exactly four calls, in this
    order: the lookup of SSH_AUTH_SOCK, the dial of network "unix" at the
    address found there, one List, and one signing request, for the key it
    then holds, over the ten bytes of "HelloWorld". *)
Theorem NewSSHAgentSigner_calls (fp account : string) (st0 st1 : State W)
    (p : ptr) :
  NewSSHAgentSigner fp account st0 = (Returned (Ok p), st1) ->
  exists address conn k s,
    host_LookupEnv "SSH_AUTH_SOCK" (world st0) = Some address
    /\ nth_error (heap st1) p = Some s
    /\ key s = Some k
    /\ agent s = Some (agent_NewClient conn)
    /\ trace st1
       = (trace st0
          ++ [EvLookupEnv "SSH_AUTH_SOCK"; EvDial "unix" address;
              EvList conn;
              EvSign conn (Some k) (Bytes.of_string "HelloWorld")])%list.
Proof.
  rewrite NewSSHAgentSigner_run. cbv zeta.
  destruct (host_LookupEnv _ _) as [address|]; [|discriminate].
  destruct (host_Dial _ _ _) as [[conn|err] w1]; cbn [fst snd];
    [|discriminate].
  destruct (host_List _ _) as [[keys|err] w2]; cbn [fst snd];
    [|discriminate].
  destruct (scanKeys _ _) as [k|]; [|discriminate].
  destruct (host_Sign _ _ _ _) as [[sig|err] w3]; cbn [fst snd];
    [|discriminate].
  destruct (decodeSignature sig) as [a|err]; [|discriminate].
  intros E. inversion E; subst.
  exists address, conn, k, (initialized fp account conn k (SignatureType a)).
  cbn [heap trace emit]. unfold emit. cbn [trace].
  repeat split; [apply nth_error_snoc|].
  now rewrite <- !app_assoc.
Qed.

(** X11. The signer a successful construction returns holds a key that the
    agent listed and that passes the test of line 89 for the requested
    fingerprint; its formatted fingerprint is that key's, its key
    identifier is "/", the account, "/keys/" and the formatted
    fingerprint, and its default algorithm is the label the agent's reply
    to the probe normalizes to. *)
Theorem constructed_signer_fields (fp account : string) (st0 st1 : State W)
    (p : ptr) :
  NewSSHAgentSigner fp account st0 = (Returned (Ok p), st1) ->
  exists address conn w1 keys w2 k sig text label s,
    host_LookupEnv "SSH_AUTH_SOCK" (world st0) = Some address
    /\ host_Dial "unix" address (world st0) = (Ok conn, w1)
    /\ host_List conn w1 = (Ok keys, w2)
    /\ In k keys
    /\ key_matches (stripFingerprint fp) k = true
    /\ host_Sign conn (Some k) probe w2 = (Ok sig, world st1)
    /\ Normalize (Format sig) (Blob sig) = Some (text, label)
    /\ nth_error (heap st1) p = Some s
    /\ key s = Some k
    /\ formattedKeyFingerprint s = formatPublicKeyFingerprint k true
    /\ keyIdentifier s
       = "/" ++ account ++ "/keys/" ++ formatPublicKeyFingerprint k true
    /\ algorithm s = label
    /\ KeyFingerprint p st1
       = (Returned (formatPublicKeyFingerprint k true), st1)
    /\ DefaultAlgorithm p st1 = (Returned label, st1).
Proof.
  rewrite NewSSHAgentSigner_run. cbv zeta.
  destruct (host_LookupEnv _ _) as [address|]; [|discriminate].
  destruct (host_Dial _ _ _) as [[conn|err] w1] eqn:Hdial; cbn [fst snd];
    [|discriminate].
  destruct (host_List _ _) as [[keys|err] w2] eqn:Hlist; cbn [fst snd];
    [|discriminate].
  destruct (scanKeys _ _) as [k|] eqn:Hscan; [|discriminate].
  destruct (host_Sign _ _ _ _) as [[sig|err] w3] eqn:Hsign; cbn [fst snd];
    [|discriminate].
  destruct (decodeSignature sig) as [a|err] eqn:Ha; [|discriminate].
  intros E. inversion E; subst. clear E.
  destruct (scanKeys_some _ _ _ Hscan) as [Hin Hm].
  assert (Hs : nth_error
                 (heap st0
                  ++ [initialized fp account conn k (SignatureType a)])
                 (List.length (heap st0))
               = Some (initialized fp account conn k (SignatureType a)))
    by apply nth_error_snoc.
  exists address, conn, w1, keys, w2, k, sig, (String_ a), (SignatureType a),
    (initialized fp account conn k (SignatureType a)).
  cbn [world heap].
  repeat (split; [first [reflexivity | assumption]|]).
  split; [apply decodeSignature_Normalize; now exists a|].
  split; [exact Hs|].
  repeat (split; [reflexivity|]).
  split.
  - unfold KeyFingerprint, bind, load. cbn [heap]. now rewrite Hs.
  - unfold DefaultAlgorithm, bind, load. cbn [heap]. now rewrite Hs.
Qed.

Lemma decodeSignature_error (sig : Signature) (e : error) :
  decodeSignature sig = Err e ->
  (exists cause,
      Error e = "Error reading signature: " ++ Error cause
      /\ (keyFormatToKeyType (Format sig) = Err cause
          \/ (keyFormatToKeyType (Format sig) = Ok "rsa"
              /\ newRSASignature (Blob sig) = Err cause)
          \/ (keyFormatToKeyType (Format sig) = Ok "ecdsa"
              /\ newECDSASignature (Blob sig) = Err cause)))
  \/ (exists family,
         keyFormatToKeyType (Format sig) = Ok family
         /\ family <> "rsa" /\ family <> "ecdsa"
         /\ e = UnsupportedAlgorithmError (Format sig)).
Proof.
  unfold decodeSignature.
  destruct (keyFormatToKeyType (Format sig)) as [fam|cause] eqn:Hf.
  - destruct (fam =? "rsa") eqn:Hr.
    + apply String.eqb_eq in Hr. subst fam.
      destruct (newRSASignature (Blob sig)) as [a|cause] eqn:Hd;
        [discriminate|].
      intros E. inversion E. left. exists cause.
      split; [apply Wrapf_reading_message | auto].
    + destruct (fam =? "ecdsa") eqn:He.
      * apply String.eqb_eq in He. subst fam.
        destruct (newECDSASignature (Blob sig)) as [a|cause] eqn:Hd;
          [discriminate|].
        intros E. inversion E. left. exists cause.
        split; [apply Wrapf_reading_message | auto].
      * intros E. inversion E. right. exists fam.
        apply String.eqb_neq in Hr, He. auto.
  - intros E. inversion E. left. exists cause.
    split; [apply Wrapf_reading_message | auto].
Qed.

(** X12. Every error [Sign] or [SignRaw] returns is one of three: the
    agent refused, and the message is "Error signing date header: " (for
    [Sign]) or "Error signing string: " (for [SignRaw]) followed by the
    agent's message; the format tag could not be classified or the blob
    could not be decoded by the decoder of its family, and the message is
    "Error reading signature: " followed by the cause's; or the family is
    neither "rsa" nor "ecdsa", and the error is the unsupported-algorithm
    one. *)
Theorem signing_errors (st : State W) (p : ptr) (s : SSHAgentSigner)
    (c : AgentClient) (payload : string) (e : error) :
  nth_error (heap st) p = Some s ->
  agent s = Some c ->
  let reply :=
    fst (host_Sign (client_conn c) (key s) (Bytes.of_string payload)
           (world st)) in
  let decoding sig :=
    (exists cause,
        Error e = "Error reading signature: " ++ Error cause
        /\ (keyFormatToKeyType (Format sig) = Err cause
            \/ (keyFormatToKeyType (Format sig) = Ok "rsa"
                /\ newRSASignature (Blob sig) = Err cause)
            \/ (keyFormatToKeyType (Format sig) = Ok "ecdsa"
                /\ newECDSASignature (Blob sig) = Err cause)))
    \/ (exists family,
           keyFormatToKeyType (Format sig) = Ok family
           /\ family <> "rsa" /\ family <> "ecdsa"
           /\ e = UnsupportedAlgorithmError (Format sig)) in
  (value (SignRaw p payload st) = Returned (Err e) ->
   (exists cause,
       reply = Err cause
       /\ Error e = "Error signing string: " ++ Error cause)
   \/ (exists sig, reply = Ok sig /\ decoding sig))
  /\ (forall d, payload = "date: " ++ d ->
        value (Sign p d st) = Returned (Err e) ->
        (exists cause,
            reply = Err cause
            /\ Error e = "Error signing date header: " ++ Error cause)
        \/ (exists sig, reply = Ok sig /\ decoding sig)).
Proof.
  intros Hs Hc reply decoding. subst reply decoding. split.
  - rewrite (SignRaw_run st p s c payload Hs Hc). cbv zeta.
    unfold value. cbn [fst].
    destruct (fst (host_Sign _ _ _ _)) as [sig|cause].
    + destruct (decodeSignature sig) as [a|e'] eqn:Hd; [discriminate|].
      intros E. inversion E; subst e'. right. exists sig.
      split; [reflexivity | now apply decodeSignature_error].
    + intros E. inversion E. left. exists cause.
      split; [reflexivity | apply Wrapf_sign_string_message].
  - intros d ->. rewrite (Sign_run st p s c d Hs Hc). cbv zeta.
    unfold value. cbn [fst].
    destruct (fst (host_Sign _ _ _ _)) as [sig|cause].
    + destruct (decodeSignature sig) as [a|e'] eqn:Hd; [discriminate|].
      intros E. inversion E; subst e'. right. exists sig.
      split; [reflexivity | now apply decodeSignature_error].
    + intros E. inversion E. left. exists cause.
      split; [reflexivity | apply Wrapf_sign_header_message].
Qed.

(** X13. When a key matches but the probe fails, construction fails with
    "Cannot sign using ssh agent: " followed by the probe's message: after
    a refusal of the agent that is "Error signing string: " and the
    agent's message; for a key whose signatures are of a family other than
    "rsa" and "ecdsa" it is "Unsupported algorithm from SSH agent: " and
    the format tag, so no signer can be constructed for such a key. *)
Theorem NewSSHAgentSigner_probe_failure (fp account : string)
    (st : State W) (address : string) (conn : Conn) (w1 w2 w3 : W)
    (keys : list Key) (k : Key) (reply : result Signature) :
  host_LookupEnv "SSH_AUTH_SOCK" (world st) = Some address ->
  host_Dial "unix" address (world st) = (Ok conn, w1) ->
  host_List conn w1 = (Ok keys, w2) ->
  scanKeys (stripFingerprint fp) keys = Some k ->
  host_Sign conn (Some k) probe w2 = (reply, w3) ->
  (forall cause,
      reply = Err cause ->
      value (NewSSHAgentSigner fp account st)
      = Returned
          (Err (errorString
                  ("Cannot sign using ssh agent: Error signing string: "
                   ++ Error cause))))
  /\ (forall sig family,
         reply = Ok sig ->
         keyFormatToKeyType (Format sig) = Ok family ->
         family <> "rsa" -> family <> "ecdsa" ->
         value (NewSSHAgentSigner fp account st)
         = Returned
             (Err (errorString
                     ("Cannot sign using ssh agent: "
                      ++ "Unsupported algorithm from SSH agent: "
                      ++ Format sig)))).
Proof.
  intros Henv Hdial Hlist Hscan Hsign.
  rewrite NewSSHAgentSigner_run. cbv zeta. rewrite Henv, Hdial.
  cbn [fst snd]. rewrite Hlist. cbn [fst snd]. rewrite Hscan, Hsign.
  unfold value. cbn [fst snd]. split.
  - intros cause ->. unfold CannotSignError.
    now rewrite Wrapf_sign_string_message.
  - intros sig family -> Hf Hr He.
    now rewrite (decodeSignature_unsupported sig family Hf Hr He).
Qed.

(** X14. Two [Sign] calls in a row on one signer send two requests, the
    first date's then the second date's, each for the signer's key; the
    second call's header is built from the agent's reply to the second
    request, made in the world the first request left, and the signer is
    unchanged. *)
Theorem Sign_twice (st : State W) (p : ptr) (s : SSHAgentSigner)
    (c : AgentClient) (d1 d2 : string) :
  nth_error (heap st) p = Some s ->
  agent s = Some c ->
  let data d := Bytes.of_string ("date: " ++ d) in
  let first := host_Sign (client_conn c) (key s) (data d1) (world st) in
  let second := host_Sign (client_conn c) (key s) (data d2) (snd first) in
  after ((Sign p d1 ;; Sign p d2) st)
  = {| world := snd second;
       trace := trace st ++ [EvSign (client_conn c) (key s) (data d1);
                             EvSign (client_conn c) (key s) (data d2)];
       heap := heap st |}
  /\ (forall sig text label,
         fst second = Ok sig ->
         Normalize (Format sig) (Blob sig) = Some (text, label) ->
         value ((Sign p d1 ;; Sign p d2) st)
         = Returned (Ok (header_value (keyIdentifier s) label text)))
  /\ (forall h,
         value ((Sign p d1 ;; Sign p d2) st) = Returned (Ok h) ->
         exists sig text label,
           fst second = Ok sig
           /\ Normalize (Format sig) (Blob sig) = Some (text, label)
           /\ h = header_value (keyIdentifier s) label text).
Proof.
  intros Hs Hc data first second. subst data first second.
  assert (Hseq : (Sign p d1 ;; Sign p d2) st
                 = Sign p d2 (after (Sign p d1 st))).
  { unfold bind, after. now rewrite (Sign_run st p s c d1 Hs Hc). }
  rewrite !Hseq. unfold after, value.
  rewrite (Sign_run st p s c d1 Hs Hc). cbv zeta. cbn [snd].
  rewrite (Sign_run _ p s c d2) by (unfold emit; cbn [heap]; assumption).
  cbv zeta. unfold after, value, emit. cbn [fst snd world trace heap].
  destruct (host_Sign (client_conn c) (key s) _ (world st)) as [r1 w1].
  cbn [fst snd].
  destruct (host_Sign (client_conn c) (key s) _ w1) as [r2 w2].
  cbn [fst snd].
  split; [now rewrite <- app_assoc|]. split.
  - intros sig text label -> Hn.
    apply decodeSignature_Normalize in Hn.
    destruct Hn as (a & -> & <- & <-). reflexivity.
  - intros h. destruct r2 as [sig|err]; [|discriminate].
    destruct (decodeSignature sig) as [a|err] eqn:Ha; [|discriminate].
    intros E. inversion E; subst h.
    exists sig, (String_ a), (SignatureType a).
    repeat split. apply decodeSignature_Normalize. now exists a.
Qed.

(** X15. On a signer without an agent, such as the zero value, [MatchKey],
    [Sign] and [SignRaw] panic on the nil interface before any call
    leaves the package and change nothing, while [KeyFingerprint] and
    [DefaultAlgorithm], which do not use the agent, return the stored
    fields. *)
Theorem signer_without_agent (st : State W) (p : ptr) (s : SSHAgentSigner)
    (d : string) :
  nth_error (heap st) p = Some s ->
  agent s = None ->
  MatchKey p st = (Panicked nil_dereference, st)
  /\ Sign p d st = (Panicked nil_dereference, st)
  /\ SignRaw p d st = (Panicked nil_dereference, st)
  /\ KeyFingerprint p st = (Returned (formattedKeyFingerprint s), st)
  /\ DefaultAlgorithm p st = (Returned (algorithm s), st).
Proof.
  intros Hs Ha.
  unfold MatchKey, Sign, SignRaw, KeyFingerprint, DefaultAlgorithm,
    bind, load, agent_List, agent_Sign.
  rewrite Hs, Ha. repeat split.
Qed.

Lemma nth_error_app_left (h extra : list SSHAgentSigner) (q : nat)
    (s : SSHAgentSigner) :
  nth_error h q = Some s -> nth_error (h ++ extra) q = Some s.
Proof.
  revert q. induction h as [|a h IH]; intros [|q] Hq;
    simpl in *; try discriminate; auto.
Qed.

(** X16. Construction never touches the signers that already exist: in
    all its outcomes every object of the heap is where and what it was, and
    the pointer a success returns is one that pointed to no object
    before. *)
Theorem NewSSHAgentSigner_preserves_signers (fp account : string)
    (st : State W) :
  (forall q s, nth_error (heap st) q = Some s ->
     nth_error (heap (after (NewSSHAgentSigner fp account st))) q = Some s)
  /\ (forall p,
         value (NewSSHAgentSigner fp account st) = Returned (Ok p) ->
         nth_error (heap st) p = None
         /\ nth_error (heap (after (NewSSHAgentSigner fp account st))) p
            <> None).
Proof.
  rewrite NewSSHAgentSigner_run. cbv zeta. unfold value, after.
  destruct (host_LookupEnv _ _) as [address|];
    [|split; [intros q s Hq; exact Hq | discriminate]].
  destruct (host_Dial _ _ _) as [[conn|err] w1]; cbn [fst snd];
    [|split; [intros q s Hq; exact Hq | discriminate]].
  destruct (host_List _ _) as [[keys|err] w2]; cbn [fst snd];
    [|split; [intros q s Hq; now apply nth_error_app_left | discriminate]].
  destruct (scanKeys _ _) as [k|];
    [|split; [intros q s Hq; now apply nth_error_app_left | discriminate]].
  destruct (host_Sign _ _ _ _) as [[sig|err] w3]; cbn [fst snd];
    [|split; [intros q s Hq; now apply nth_error_app_left | discriminate]].
  destruct (decodeSignature sig) as [a|err];
    [|split; [intros q s Hq; now apply nth_error_app_left | discriminate]].
  cbn [fst snd heap]. split.
  - intros q s Hq. now apply nth_error_app_left.
  - intros p E. inversion E; subst p. split.
    + apply nth_error_None. lia.
    + rewrite nth_error_snoc. discriminate.
Qed.

(** X17. [Sign] reads three fields of the signer, the agent, the key and
    the key identifier, and [SignRaw] reads two, the agent and the key:
    signers that agree on these return the same result in the same world,
    whatever their fingerprints, account and default algorithm. *)
Theorem signing_reads_few_fields (st1 st2 : State W) (p1 p2 : ptr)
    (s1 s2 : SSHAgentSigner) (payload : string) :
  world st1 = world st2 ->
  nth_error (heap st1) p1 = Some s1 ->
  nth_error (heap st2) p2 = Some s2 ->
  agent s1 = agent s2 ->
  key s1 = key s2 ->
  value (SignRaw p1 payload st1) = value (SignRaw p2 payload st2)
  /\ world (after (SignRaw p1 payload st1))
     = world (after (SignRaw p2 payload st2))
  /\ (keyIdentifier s1 = keyIdentifier s2 ->
      value (Sign p1 payload st1) = value (Sign p2 payload st2)
      /\ world (after (Sign p1 payload st1))
         = world (after (Sign p2 payload st2))).
Proof.
  intros Hw H1 H2 Ha Hk.
  destruct (agent s1) as [c|] eqn:Hc.
  - symmetry in Ha.
    rewrite (SignRaw_run st1 p1 s1 c payload H1 Hc).
    rewrite (SignRaw_run st2 p2 s2 c payload H2 Ha).
    rewrite (Sign_run st1 p1 s1 c payload H1 Hc).
    rewrite (Sign_run st2 p2 s2 c payload H2 Ha).
    cbv zeta. unfold after, value, emit. cbn [fst snd world].
    rewrite Hw, Hk. split; [reflexivity|]. split; [reflexivity|].
    intros ->. split; reflexivity.
  - symmetry in Ha.
    rewrite !SignRaw_panics, !Sign_panics
      by (right; eexists; split; eassumption).
    unfold value, after. cbn [fst snd]. auto.
Qed.

End Extras.

(** ** The further properties at concrete inputs *)

Section ExtraExamples.

Import Double Scenario.

Lemma NewSSHAgentSigner_dial_failure_witness :
  host_LookupEnv "SSH_AUTH_SOCK" (world unreachable) = Some "/tmp/agent.sock"
  /\ host_Dial "unix" "/tmp/agent.sock" (world unreachable)
     = (Err unreachable_cause, world unreachable)
  /\ exists outer,
       NewSSHAgentSigner fingerprint "acct" unreachable
       = (Returned (Err (wrappedError outer unreachable_cause)),
          {| world := world unreachable;
             trace := trace unreachable
                      ++ [EvLookupEnv "SSH_AUTH_SOCK";
                          EvDial "unix" "/tmp/agent.sock"];
             heap := heap unreachable |})
       /\ Error (wrappedError outer unreachable_cause)
          = "Error dialing SSH agent: " ++ Error unreachable_cause.
Proof.
  assert (Henv : host_LookupEnv "SSH_AUTH_SOCK" (world unreachable)
                 = Some "/tmp/agent.sock") by (vm_compute; reflexivity).
  assert (Hdial : host_Dial "unix" "/tmp/agent.sock" (world unreachable)
                  = (Err unreachable_cause, world unreachable))
    by (vm_compute; reflexivity).
  split; [exact Henv|]. split; [exact Hdial|].
  exact (NewSSHAgentSigner_dial_failure fingerprint "acct" unreachable
           "/tmp/agent.sock" unreachable_cause (world unreachable)
           Henv Hdial).
Defined.

Lemma NewSSHAgentSigner_no_matching_key_witness :
  (forall k, In k [other_key; rsa_key] ->
     key_matches (stripFingerprint (fingerprint_in md5_bare key_a)) k = false)
  /\ value
       (NewSSHAgentSigner (fingerprint_in md5_bare key_a) "acct"
          (boot []))
     = Returned
         (Err (errorString
                 ("No key in the SSH Agent matches fingerprint: "
                  ++ fingerprint_in md5_bare key_a))).
Proof.
  assert (Hnone : forall k, In k [other_key; rsa_key] ->
            key_matches (stripFingerprint (fingerprint_in md5_bare key_a)) k
            = false).
  { intros k [<-|[<-|[]]]; vm_compute; reflexivity. }
  split; [exact Hnone|].
  refine (proj1 (NewSSHAgentSigner_no_matching_key
                   (fingerprint_in md5_bare key_a) "acct" (boot [])
                   "/tmp/agent.sock" 3 (world (boot [])) (world (boot []))
                   [other_key; rsa_key] _ _ _ Hnone));
    vm_compute; reflexivity.
Defined.

Lemma MatchKey_list_failure_witness :
  fst (host_List (client_conn (agent_NewClient 3)) (world unlisted))
  = Err list_cause
  /\ exists outer,
       value (MatchKey 0 unlisted)
       = Returned (Err (wrappedError outer list_cause))
       /\ Error (wrappedError outer list_cause)
          = "Error listing keys in SSH Agent: %s".
Proof.
  assert (Hl : fst (host_List (client_conn (agent_NewClient 3))
                      (world unlisted)) = Err list_cause)
    by (vm_compute; reflexivity).
  split; [exact Hl|].
  refine (MatchKey_list_failure unlisted 0 (signer_with fingerprint)
            (agent_NewClient 3) list_cause _ _ Hl);
    vm_compute; reflexivity.
Defined.

Lemma MatchKey_sound_witness :
  value (MatchKey 0 (holding fingerprint [other_key; rsa_key]))
  = Returned (Ok rsa_key)
  /\ (stripFingerprint (keyFingerprint (signer_with fingerprint))
      = Encoding.hex (MD5.Sum (Marshal rsa_key))
      \/ stripFingerprint (keyFingerprint (signer_with fingerprint))
         = Encoding.base64_raw (SHA256.Sum (Marshal rsa_key))).
Proof.
  assert (Hv : value (MatchKey 0 (holding fingerprint [other_key; rsa_key]))
               = Returned (Ok rsa_key)) by (vm_compute; reflexivity).
  split; [exact Hv|].
  refine (proj1 (proj2 (MatchKey_sound
                          (holding fingerprint [other_key; rsa_key]) 0
                          (signer_with fingerprint) (agent_NewClient 3)
                          rsa_key _ _ Hv)));
    vm_compute; reflexivity.
Defined.

Lemma MatchKey_finds_listed_key_witness :
  In rsa_key [other_key; rsa_key]
  /\ exists k',
       value
         (MatchKey 0
            (holding (fingerprint_in md5_colons rsa_key)
               [other_key; rsa_key]))
       = Returned (Ok k')
       /\ In k' [other_key; rsa_key]
       /\ digest_text (form_family md5_colons) k'
          = digest_text (form_family md5_colons) rsa_key.
Proof.
  assert (Hin : In rsa_key [other_key; rsa_key]) by (right; left; reflexivity).
  split; [exact Hin|].
  refine (MatchKey_finds_listed_key
            (holding (fingerprint_in md5_colons rsa_key)
               [other_key; rsa_key])
            0 (signer_with (fingerprint_in md5_colons rsa_key))
            (agent_NewClient 3) [other_key; rsa_key] rsa_key md5_colons
            _ _ _ Hin _);
    vm_compute; reflexivity.
Defined.

Lemma MatchKey_unique_match_witness :
  (forall k', In k' [rsa_key; other_key] ->
     key_matches
       (stripFingerprint (keyFingerprint (signer_with fingerprint))) k'
     = true -> k' = rsa_key)
  /\ value (MatchKey 0 (holding fingerprint [rsa_key; other_key]))
     = Returned (Ok rsa_key).
Proof.
  assert (Hu : forall k', In k' [rsa_key; other_key] ->
            key_matches
              (stripFingerprint (keyFingerprint (signer_with fingerprint))) k'
            = true -> k' = rsa_key).
  { intros k' [<-|[<-|[]]] E; [reflexivity|].
    vm_compute in E. discriminate E. }
  split; [exact Hu|].
  refine (MatchKey_unique_match
            (holding fingerprint [rsa_key; other_key]) 0
            (signer_with fingerprint) (agent_NewClient 3)
            [rsa_key; other_key] rsa_key _ _ _ _ _ Hu);
    [vm_compute; reflexivity | vm_compute; reflexivity
     | vm_compute; reflexivity | left; reflexivity
     | vm_compute; reflexivity].
Defined.

Lemma MatchKey_target_shape_witness :
  value (MatchKey 0 (holding fingerprint [other_key; rsa_key]))
  = Returned (Ok rsa_key)
  /\ String.length
       (stripFingerprint (keyFingerprint (signer_with fingerprint))) = 43
  /\ ((String.length
         (stripFingerprint (keyFingerprint (signer_with fingerprint))) = 32
       /\ all_hex
            (stripFingerprint (keyFingerprint (signer_with fingerprint)))
          = true)
      \/ (String.length
            (stripFingerprint (keyFingerprint (signer_with fingerprint)))
          = 43
          /\ all_base64
               (stripFingerprint (keyFingerprint (signer_with fingerprint)))
             = true)).
Proof.
  assert (Hv : value (MatchKey 0 (holding fingerprint [other_key; rsa_key]))
               = Returned (Ok rsa_key)) by (vm_compute; reflexivity).
  split; [exact Hv|]. split; [vm_compute; reflexivity|].
  refine (MatchKey_target_shape
            (holding fingerprint [other_key; rsa_key]) 0
            (signer_with fingerprint) (agent_NewClient 3) rsa_key _ _ Hv);
    vm_compute; reflexivity.
Defined.

Lemma MatchKey_double_prefix_witness :
  String.length
    (stripFingerprint
       (keyFingerprint
          (signer_with ("SHA256:MD5:" ++ digest_text MD5_hex rsa_key))))
  = 35
  /\ value
       (MatchKey 0
          (holding ("SHA256:MD5:" ++ digest_text MD5_hex rsa_key)
             [other_key; rsa_key]))
     = Returned
         (Err (KeyNotFoundError
                 (keyFingerprint
                    (signer_with
                       ("SHA256:MD5:" ++ digest_text MD5_hex rsa_key))))).
Proof.
  split; [vm_compute; reflexivity|].
  refine (proj2 (proj2 (MatchKey_double_prefix
                          (holding
                             ("SHA256:MD5:" ++ digest_text MD5_hex rsa_key)
                             [other_key; rsa_key])
                          0
                          (signer_with
                             ("SHA256:MD5:" ++ digest_text MD5_hex rsa_key))
                          (agent_NewClient 3) [other_key; rsa_key] rsa_key
                          MD5_hex _ _ _ _) _));
    [vm_compute; reflexivity | vm_compute; reflexivity
     | vm_compute; reflexivity | right; left; reflexivity
     | vm_compute; reflexivity].
Defined.

Lemma NewSSHAgentSigner_calls_witness :
  NewSSHAgentSigner fingerprint "acct" (boot [ecdsa_reply])
  = (Returned (Ok 0), ready [ecdsa_reply])
  /\ exists address conn k s,
       host_LookupEnv "SSH_AUTH_SOCK" (world (boot [ecdsa_reply]))
       = Some address
       /\ nth_error (heap (ready [ecdsa_reply])) 0 = Some s
       /\ key s = Some k
       /\ agent s = Some (agent_NewClient conn)
       /\ trace (ready [ecdsa_reply])
          = (trace (boot [ecdsa_reply])
             ++ [EvLookupEnv "SSH_AUTH_SOCK"; EvDial "unix" address;
                 EvList conn;
                 EvSign conn (Some k) (Bytes.of_string "HelloWorld")])%list.
Proof.
  assert (Hnew : NewSSHAgentSigner fingerprint "acct" (boot [ecdsa_reply])
                 = (Returned (Ok 0), ready [ecdsa_reply]))
    by (vm_compute; reflexivity).
  split; [exact Hnew|].
  exact (NewSSHAgentSigner_calls fingerprint "acct" (boot [ecdsa_reply])
           (ready [ecdsa_reply]) 0 Hnew).
Defined.

Lemma constructed_signer_fields_witness :
  NewSSHAgentSigner fingerprint "acct" (boot [ecdsa_reply])
  = (Returned (Ok 0), ready [ecdsa_reply])
  /\ exists k label,
       key_matches (stripFingerprint fingerprint) k = true
       /\ KeyFingerprint 0 (ready [ecdsa_reply])
          = (Returned (formatPublicKeyFingerprint k true),
             ready [ecdsa_reply])
       /\ DefaultAlgorithm 0 (ready [ecdsa_reply])
          = (Returned label, ready [ecdsa_reply]).
Proof.
  assert (Hnew : NewSSHAgentSigner fingerprint "acct" (boot [ecdsa_reply])
                 = (Returned (Ok 0), ready [ecdsa_reply]))
    by (vm_compute; reflexivity).
  split; [exact Hnew|].
  destruct (constructed_signer_fields fingerprint "acct"
              (boot [ecdsa_reply]) (ready [ecdsa_reply]) 0 Hnew)
    as (address & conn & w1 & keys & w2 & k & sig & text & label & s
        & _ & _ & _ & _ & Hm & _ & _ & _ & _ & _ & _ & _ & Hkf & Hda).
  exists k, label. split; [exact Hm|]. split; [exact Hkf | exact Hda].
Defined.

Lemma signing_errors_witness :
  value (SignRaw 0 "payload" (ready []))
  = Returned (Err (errwrap_Wrapf "Error signing string: {{err}}" refused))
  /\ Error (errwrap_Wrapf "Error signing string: {{err}}" refused)
     = "Error signing string: " ++ Error refused.
Proof.
  assert (Hv : value (SignRaw 0 "payload" (ready []))
               = Returned
                   (Err (errwrap_Wrapf "Error signing string: {{err}}"
                           refused)))
    by (vm_compute; reflexivity).
  split; [exact Hv|].
  assert (Hs : nth_error (heap (ready [])) 0
               = Some (initialized fingerprint "acct" 3 rsa_key "rsa-sha256"))
    by (vm_compute; reflexivity).
  pose proof (signing_errors (ready []) 0
                (initialized fingerprint "acct" 3 rsa_key "rsa-sha256")
                (agent_NewClient 3) "payload"
                (errwrap_Wrapf "Error signing string: {{err}}" refused)
                Hs eq_refl) as T.
  cbv zeta in T. destruct T as [T _].
  destruct (T Hv) as [(cause & Hr & Hm) | (sig & Hr & _)].
  - vm_compute in Hr. inversion Hr. subst cause. exact Hm.
  - vm_compute in Hr. discriminate Hr.
Defined.

Lemma NewSSHAgentSigner_probe_failure_witness :
  host_Sign 3 (Some rsa_key) probe (world refusing)
  = (Err refused, world refusing)
  /\ value (NewSSHAgentSigner fingerprint "acct" refusing)
     = Returned
         (Err (errorString
                 ("Cannot sign using ssh agent: Error signing string: "
                  ++ Error refused))).
Proof.
  assert (Hsign : host_Sign 3 (Some rsa_key) probe (world refusing)
                  = (Err refused, world refusing))
    by (vm_compute; reflexivity).
  split; [exact Hsign|].
  refine (proj1 (NewSSHAgentSigner_probe_failure fingerprint "acct" refusing
                   "/tmp/agent.sock" 3 (world refusing) (world refusing)
                   (world refusing) [rsa_key] rsa_key (Err refused)
                   _ _ _ _ Hsign) refused eq_refl);
    vm_compute; reflexivity.
Defined.

Lemma Sign_twice_witness :
  nth_error (heap (ready [rsa_reply; ecdsa_reply])) 0
  = Some (initialized fingerprint "acct" 3 rsa_key "rsa-sha256")
  /\ trace (after ((Sign 0 date ;; Sign 0 "another date")
                     (ready [rsa_reply; ecdsa_reply])))
     = (trace (ready [rsa_reply; ecdsa_reply])
        ++ [EvSign 3 (Some rsa_key) (Bytes.of_string ("date: " ++ date));
            EvSign 3 (Some rsa_key)
              (Bytes.of_string ("date: " ++ "another date"))])%list.
Proof.
  assert (Hs : nth_error (heap (ready [rsa_reply; ecdsa_reply])) 0
               = Some (initialized fingerprint "acct" 3 rsa_key "rsa-sha256"))
    by (vm_compute; reflexivity).
  split; [exact Hs|].
  pose proof (Sign_twice (ready [rsa_reply; ecdsa_reply]) 0
                (initialized fingerprint "acct" 3 rsa_key "rsa-sha256")
                (agent_NewClient 3) date "another date" Hs eq_refl) as T.
  cbv zeta in T. destruct T as [T _].
  rewrite T. reflexivity.
Defined.

Lemma signer_without_agent_witness :
  nth_error (heap zero_held) 0 = Some zero_signer
  /\ agent zero_signer = None
  /\ MatchKey 0 zero_held = (Panicked nil_dereference, zero_held)
  /\ Sign 0 date zero_held = (Panicked nil_dereference, zero_held)
  /\ SignRaw 0 date zero_held = (Panicked nil_dereference, zero_held)
  /\ KeyFingerprint 0 zero_held
     = (Returned (formattedKeyFingerprint zero_signer), zero_held)
  /\ DefaultAlgorithm 0 zero_held
     = (Returned (algorithm zero_signer), zero_held).
Proof.
  assert (Hs : nth_error (heap zero_held) 0 = Some zero_signer)
    by (vm_compute; reflexivity).
  assert (Ha : agent zero_signer = None) by reflexivity.
  split; [exact Hs|]. split; [exact Ha|].
  exact (signer_without_agent zero_held 0 zero_signer date Hs Ha).
Defined.

Lemma NewSSHAgentSigner_preserves_signers_witness :
  nth_error (heap (ready [rsa_reply])) 0
  = Some (initialized fingerprint "acct" 3 rsa_key "rsa-sha256")
  /\ nth_error
       (heap (after (NewSSHAgentSigner (fingerprint_in md5_bare rsa_key)
                       "second" (ready [rsa_reply])))) 0
     = Some (initialized fingerprint "acct" 3 rsa_key "rsa-sha256").
Proof.
  assert (Hs : nth_error (heap (ready [rsa_reply])) 0
               = Some (initialized fingerprint "acct" 3 rsa_key "rsa-sha256"))
    by (vm_compute; reflexivity).
  split; [exact Hs|].
  exact (proj1 (NewSSHAgentSigner_preserves_signers
                  (fingerprint_in md5_bare rsa_key) "second"
                  (ready [rsa_reply])) 0 _ Hs).
Defined.

Lemma signing_reads_few_fields_witness :
  nth_error (heap (ready [ecdsa_reply])) 0
  = Some (initialized fingerprint "acct" 3 rsa_key "rsa-sha256")
  /\ nth_error (heap (renamed [ecdsa_reply])) 0 = Some renamed_signer
  /\ value (SignRaw 0 "payload" (ready [ecdsa_reply]))
     = value (SignRaw 0 "payload" (renamed [ecdsa_reply])).
Proof.
  assert (H1 : nth_error (heap (ready [ecdsa_reply])) 0
               = Some (initialized fingerprint "acct" 3 rsa_key "rsa-sha256"))
    by (vm_compute; reflexivity).
  assert (H2 : nth_error (heap (renamed [ecdsa_reply])) 0
               = Some renamed_signer) by (vm_compute; reflexivity).
  split; [exact H1|]. split; [exact H2|].
  refine (proj1 (signing_reads_few_fields (ready [ecdsa_reply])
                   (renamed [ecdsa_reply]) 0 0
                   (initialized fingerprint "acct" 3 rsa_key "rsa-sha256")
                   renamed_signer "payload" _ H1 H2 _ _));
    vm_compute; reflexivity.
Defined.

End ExtraExamples.
